(** * African Critical Minerals dashboard: user store, registration,
      data loading and map building of [app.py]

    The development follows [app.py] function by function.  Files are
    modelled by their parsed content, with the state of the data directory
    passed explicitly; exceptions are an explicit [Raise] result; a Python
    [str] is its UTF-8 bytes; the external libraries the program calls
    (werkzeug's password hashing, pandas' [read_csv] and [merge], folium's
    check of locations, the string-to-number conversions of Python and
    pandas) are either parameters of a section or small models documented
    where they are defined. *)

From Stdlib Require Import ZArith QArith String Ascii List Bool Lia.
From stdpp Require Import base option list strings gmap.

Local Open Scope Z_scope.
Local Open Scope string_scope.
Local Open Scope list_scope.

(** ** Results of code that may raise *)

Inductive result (A : Type) : Type :=
| Ok (a : A)
| Raise (exn : string).
Arguments Ok {A} a.
Arguments Raise {A} exn.

Definition rbind {A B} (r : result A) (k : A -> result B) : result B :=
  match r with
  | Ok a => k a
  | Raise e => Raise e
  end.

(** ** The user store ([users.json]) *)

(** One entry of the ["users"] list.  [authenticate] reads the email with
    [u.get("email")], so an entry may lack it. *)
Record User := mkUser {
  user_id : Z;
  username : string;
  password_hash : string;
  role : string;
  email : option string;
  created_at : string
}.

(** The parsed content of [USERS_FILE]. *)
Record UsersData := mkUsersData {
  users : list User;
  next_id : Z
}.

(** What [init_users] draws from the outside when it has to create the
    file: the salt of the seed password and the clock. *)
Record InitEnv (Salt : Type) := mkInitEnv {
  seed_salt : Salt;
  seed_time : string
}.
Arguments seed_salt {Salt} _.
Arguments seed_time {Salt} _.
Arguments mkInitEnv {Salt} _ _.

(** Outcome of the Register button, one constructor per [st.error] /
    [st.success] branch of [auth_section]. *)
Inductive RegisterOutcome :=
| PasswordMismatchError
| MissingFieldsError
| InvalidAdminCodeError
| DuplicateUsernameError
| Registered.

(** [os.environ.get("ACM_ADMIN_SECRET", "letmein")] *)
Definition ADMIN_SECRET (environ : gmap string string) : string :=
  default "letmein" (environ !! "ACM_ADMIN_SECRET").

(** Python's [str.strip()].  A [str] is modelled by its UTF-8 bytes, so the
    whitespace characters it strips ([str.isspace]) are byte sequences:
    the ASCII ones U+0009-000D, U+001C-001F and U+0020, the two-byte
    U+0085 and U+00A0, and the three-byte U+1680, U+2000-200A, U+2028,
    U+2029, U+202F, U+205F and U+3000. *)
Definition is_space (c : ascii) : bool :=
  let n := nat_of_ascii c in
  ((9 <=? n)%nat && (n <=? 13)%nat) || ((28 <=? n)%nat && (n <=? 32)%nat).

Definition is_space2 (c1 c2 : ascii) : bool :=
  let a := nat_of_ascii c1 in
  let b := nat_of_ascii c2 in
  (a =? 194)%nat && ((b =? 133)%nat || (b =? 160)%nat).

Definition is_space3 (c1 c2 c3 : ascii) : bool :=
  let a := nat_of_ascii c1 in
  let b := nat_of_ascii c2 in
  let c := nat_of_ascii c3 in
  ((a =? 225)%nat && (b =? 154)%nat && (c =? 128)%nat)
  || ((a =? 226)%nat && (b =? 128)%nat
      && (((128 <=? c)%nat && (c <=? 138)%nat)
          || (c =? 168)%nat || (c =? 169)%nat || (c =? 175)%nat))
  || ((a =? 226)%nat && (b =? 129)%nat && (c =? 159)%nat)
  || ((a =? 227)%nat && (b =? 128)%nat && (c =? 128)%nat).

(** What follows the first character of [l] when that character is
    whitespace; [t2] and [t3] recognise the two- and three-byte ones. *)
Definition front_space (t2 : ascii -> ascii -> bool)
    (t3 : ascii -> ascii -> ascii -> bool) (l : list ascii) : option (list ascii) :=
  match l with
  | c1 :: r1 =>
      if is_space c1 then Some r1
      else match r1 with
           | c2 :: r2 =>
               if t2 c1 c2 then Some r2
               else match r2 with
                    | c3 :: r3 => if t3 c1 c2 c3 then Some r3 else None
                    | [] => None
                    end
           | [] => None
           end
  | [] => None
  end.

(** Removes the whitespace characters at the front of [l]. *)
Fixpoint strip_front (t2 : ascii -> ascii -> bool)
    (t3 : ascii -> ascii -> ascii -> bool) (l : list ascii) : list ascii :=
  match l with
  | c1 :: r1 =>
      if is_space c1 then strip_front t2 t3 r1
      else match r1 with
           | c2 :: r2 =>
               if t2 c1 c2 then strip_front t2 t3 r2
               else match r2 with
                    | c3 :: r3 => if t3 c1 c2 c3 then strip_front t2 t3 r3 else l
                    | [] => l
                    end
           | [] => l
           end
  | [] => []
  end.

Definition lstrip_bytes (l : list ascii) : list ascii :=
  strip_front is_space2 is_space3 l.

(** At the end of the string the bytes of a character are met last one
    first. *)
Definition rstrip_bytes (l : list ascii) : list ascii :=
  rev (strip_front (fun c1 c2 => is_space2 c2 c1)
                   (fun c1 c2 c3 => is_space3 c3 c2 c1) (rev l)).

Definition lstrip (s : string) : string :=
  string_of_list_ascii (lstrip_bytes (list_ascii_of_string s)).

Definition rstrip (s : string) : string :=
  string_of_list_ascii (rstrip_bytes (list_ascii_of_string s)).

Definition strip (s : string) : string :=
  string_of_list_ascii (rstrip_bytes (lstrip_bytes (list_ascii_of_string s))).

Section UserStore.

(** werkzeug's [generate_password_hash] draws a random salt;
    [check_password_hash] recomputes the digest from the salt stored in
    the hash.  Only the law that a generated hash verifies its own
    password is assumed. *)
Context {Salt : Type}.
Variable generate_password_hash : Salt -> string -> string.
Variable check_password_hash : string -> string -> bool.
Hypothesis check_generate :
  forall salt pw, check_password_hash (generate_password_hash salt pw) pw = true.

(** The seed written by [init_users]. *)
Definition seed_store (env : InitEnv Salt) : UsersData :=
  {| users :=
       [ {| user_id := 1; username := "admin";
            password_hash := generate_password_hash (seed_salt env) "password";
            role := "Administrator"; email := Some "admin@minerals.local";
            created_at := seed_time env |} ];
     next_id := 2 |}.

(** [init_users]: [file] is the parsed content of [USERS_FILE], [None]
    when the file does not exist; the result is its content afterwards. *)
Definition init_users (env : InitEnv Salt) (file : option UsersData) : UsersData :=
  match file with
  | None => seed_store env
  | Some d => d
  end.

(** [load_users] returns the content of the file after [init_users]. *)
Definition load_users (env : InitEnv Salt) (file : option UsersData) : UsersData :=
  init_users env file.

(** [save_users]: the file content once the write has completed.  The
    operations the write performs on the disk are [save_users_steps]
    below. *)
Definition save_users (data : UsersData) : option UsersData := Some data.

(** [create_user]; [salt] and [now] are the salt drawn for the new hash
    and the value of [datetime.utcnow().isoformat()].  The result is the
    file afterwards. *)
Definition create_user (env : InitEnv Salt) (file : option UsersData)
    (salt : Salt) (now : string)
    (uname password urole uemail : string) : option UsersData :=
  let data := load_users env file in
  let uemail := if (uemail =? "")%string then (uname ++ "@minerals.local")%string else uemail in
  let entry := {| user_id := next_id data; username := uname;
                  password_hash := generate_password_hash salt password;
                  role := urole; email := Some uemail; created_at := now |} in
  save_users {| users := users data ++ [entry]; next_id := next_id data + 1 |}.

(** [login_id == u["username"] or login_id == u.get("email")] *)
Definition names (login_id : string) (u : User) : bool :=
  (login_id =? username u)%string ||
  match email u with
  | Some e => (login_id =? e)%string
  | None => false
  end.

(** The [for] loop of [authenticate]. *)
Fixpoint authenticate_loop (us : list User) (login_id password : string) : option User :=
  match us with
  | [] => None
  | u :: rest =>
      if names login_id u then
        if check_password_hash (password_hash u) password then Some u
        else authenticate_loop rest login_id password
      else authenticate_loop rest login_id password
  end.

Definition authenticate (env : InitEnv Salt) (file : option UsersData)
    (login_id password : string) : option User :=
  authenticate_loop (users (load_users env file)) login_id password.

(** The body of [if st.button("Register")] in [auth_section]: the
    outcome shown to the user and the file afterwards.  The first three
    branches do not touch the file. *)
Definition register (environ : gmap string string) (env : InitEnv Salt)
    (file : option UsersData) (salt : Salt) (now : string)
    (u uemail urole pw conf admin_code : string)
    : RegisterOutcome * option UsersData :=
  if negb (pw =? conf)%string then (PasswordMismatchError, file)
  else if (u =? "")%string || (pw =? "")%string then (MissingFieldsError, file)
  else if (urole =? "Administrator")%string
          && negb (admin_code =? ADMIN_SECRET environ)%string
  then (InvalidAdminCodeError, file)
  else
    let data := load_users env file in
    if existsb (fun x => (username x =? u)%string) (users data)
    then (DuplicateUsernameError, Some data)
    else (Registered, create_user env (Some data) salt now u pw urole (strip uemail)).

(** The "Manage Users" block of [admin_view] once "Delete User" is
    pressed with [uid] in the number input: the file afterwards. *)
Definition admin_delete_user (env : InitEnv Salt) (file : option UsersData)
    (uid : Z) : option UsersData :=
  let data := load_users env file in
  match users data with
  | [] => Some data
  | _ :: _ =>
      save_users {| users := filter (fun u => user_id u <> uid) (users data);
                    next_id := next_id data |}
  end.

End UserStore.

(** ** Writing [users.json]: the file operations of [save_users] *)

(** [os.path.join(DATA_DIR, "users.json")], relative to the working
    directory. *)
Definition USERS_FILE : string := "data/users.json".

(** The operations a [with open(path, "w") as f: json.dump(..., f)] block
    performs on the disk, in order. *)
Inductive io_step :=
| OpenWrite (path : string)                (* open(path, "w"): create or truncate *)
| WriteText (path : string) (text : string) (* one f.write of json.dump *)
| CloseFile (path : string).

Definition step_path (s : io_step) : string :=
  match s with
  | OpenWrite p | WriteText p _ | CloseFile p => p
  end.

(** The disk maps a path to the text of the file. *)
Definition run_step (disk : gmap string string) (s : io_step) : gmap string string :=
  match s with
  | OpenWrite p => <[p := ""]> disk
  | WriteText p t => alter (fun old => (old ++ t)%string) p disk
  | CloseFile _ => disk
  end.

Definition run_steps (disk : gmap string string) (steps : list io_step)
    : gmap string string :=
  foldl run_step disk steps.

(** The disk when the process stops after the first [n] operations. *)
Definition interrupted (n : nat) (steps : list io_step) (disk : gmap string string)
    : gmap string string :=
  run_steps disk (take n steps).

Section SaveUsers.

(** The chunks [json.dump(data, f, indent=2)] hands to [f.write].  What
    has reached the disk when the process stops between the [open] and the
    [close] is a prefix of their concatenation; the model cuts it at a
    chunk boundary. *)
Variable json_chunks : UsersData -> list string.

Definition json_text (data : UsersData) : string :=
  foldr String.append "" (json_chunks data).

Definition save_users_steps (data : UsersData) : list io_step :=
  OpenWrite USERS_FILE
    :: map (WriteText USERS_FILE) (json_chunks data) ++ [CloseFile USERS_FILE].

End SaveUsers.

(** ** Tables: the part of pandas that [load_data] and [build_map] use *)

(** A value in a table as [pd.read_csv] produces it: a missing value, an
    integer, a float (finite floats are modelled by exact rationals), or
    text. *)
Inductive Cell :=
| NaN
| CInt (z : Z)
| CFloat (q : Q)
| CStr (s : string).

(** A [DataFrame]: column labels and rows, each row holding one cell per
    column in column order. *)
Record DataFrame := mkDataFrame {
  columns : list string;
  rows : list (list Cell)
}.

(** Every row has one cell per column. *)
Definition well_formed (df : DataFrame) : Prop :=
  Forall (fun r => length r = length (columns df)) (rows df).

(** [pd.DataFrame()] and [pd.DataFrame(columns=cols)] *)
Definition DataFrame_new : DataFrame := {| columns := []; rows := [] |}.
Definition DataFrame_columns (cols : list string) : DataFrame :=
  {| columns := cols; rows := [] |}.

(** [df.empty]: some axis has length 0. *)
Definition df_empty (df : DataFrame) : bool :=
  match columns df, rows df with
  | _ :: _, _ :: _ => false
  | _, _ => true
  end.

(** Position of the first column labelled [name]. *)
Fixpoint col_index (name : string) (cols : list string) : option nat :=
  match cols with
  | [] => None
  | c :: cs => if (c =? name)%string then Some 0%nat
               else option_map S (col_index name cs)
  end.

(** [name in df.columns] *)
Definition has_column (name : string) (cols : list string) : bool :=
  match col_index name cols with Some _ => true | None => false end.

Definition cell (row : list Cell) (i : nat) : Cell := default NaN (row !! i).

(** [r.get(name)] on a row of a frame with columns [cols]: [None] when
    there is no such column. *)
Definition row_get (cols : list string) (row : list Cell) (name : string)
    : option Cell :=
  option_map (cell row) (col_index name cols).

Definition cell_num (c : Cell) : option Q :=
  match c with
  | CInt z => Some (inject_Z z)
  | CFloat q => Some q
  | _ => None
  end.

(** Equality of two values as [unique] and dict lookup compare entries
    (Python's [==]: numbers by value, text by content).  Missing values
    are dropped before either is used; they count as equal to each
    other. *)
Definition cell_eqb (a b : Cell) : bool :=
  match a, b with
  | NaN, NaN => true
  | CStr s, CStr t => (s =? t)%string
  | _, _ =>
      match cell_num a, cell_num b with
      | Some x, Some y => Qeq_bool x y
      | _, _ => false
      end
  end.

(** numpy's conversion of an [int64] to [float64]: exact up to 2^53 in
    absolute value, beyond that rounded to 53 significant bits, ties to
    even. *)
Definition float64_of_Z (z : Z) : Z :=
  if (Z.abs z <=? 2 ^ 53)%Z then z
  else
    let e := Z.log2 (Z.abs z) - 52 in
    let m := Z.abs z / 2 ^ e in
    let r := Z.abs z mod 2 ^ e in
    let up := (2 ^ (e - 1) <? r)%Z || ((r =? 2 ^ (e - 1))%Z && Z.odd m) in
    Z.sgn z * (if up then m + 1 else m) * 2 ^ e.

(** Equality of two keys as [merge] compares them.  Keys of one kind are
    compared as they are, a missing key matching a missing key; when one
    key column holds integers and the other floats, pandas converts the
    integers to [float64] first. *)
Definition key_eqb (a b : Cell) : bool :=
  match a, b with
  | CInt x, CFloat q | CFloat q, CInt x => Qeq_bool (inject_Z (float64_of_Z x)) q
  | _, _ => cell_eqb a b
  end.

Definition is_str (c : Cell) : bool :=
  match c with CStr _ => true | _ => false end.

(** A column read by [read_csv] has dtype [object] exactly when it holds
    text. *)
Definition is_object (col : list Cell) : bool := existsb is_str col.

Definition remove_nth {A} (i : nat) (l : list A) : list A :=
  (take i l ++ drop (S i) l)%list.

(** The labels of [left.merge(right, on=key)]: the columns of [left],
    then those of [right] without the key; a label other than the key that
    occurs on both sides gets the suffix [_x] on the left and [_y] on the
    right. *)
Definition merge_columns (lcols rcols : list string) (on : string) (j : nat)
    : list string :=
  (map (fun c => if negb (c =? on)%string && has_column c rcols
                 then (c ++ "_x")%string else c) lcols
   ++ map (fun c => if has_column c lcols then (c ++ "_y")%string else c)
          (remove_nth j rcols))%list.

(** The rows of the inner join: each left row, in order, with every right
    row of equal key, in order. *)
Definition merge_rows (lrows rrows : list (list Cell)) (i j : nat)
    : list (list Cell) :=
  flat_map (fun l =>
    map (fun r => (l ++ remove_nth j r)%list)
        (List.filter (fun r => key_eqb (cell l i) (cell r j)) rrows)) lrows.

(** [left.merge(right, on=key)] with pandas' default [how="inner"].  It
    raises [KeyError] when a side lacks the key column and [ValueError]
    when, both sides having rows, one key column is text and the other
    numeric. *)
Definition merge (left right : DataFrame) (on : string) : result DataFrame :=
  match col_index on (columns left), col_index on (columns right) with
  | Some i, Some j =>
      let lk := map (fun r => cell r i) (rows left) in
      let rk := map (fun r => cell r j) (rows right) in
      match rows left, rows right with
      | _ :: _, _ :: _ =>
          if eqb (is_object lk) (is_object rk)
          then Ok {| columns := merge_columns (columns left) (columns right) on j;
                     rows := merge_rows (rows left) (rows right) i j |}
          else Raise "ValueError"
      | _, _ =>
          Ok {| columns := merge_columns (columns left) (columns right) on j;
                rows := merge_rows (rows left) (rows right) i j |}
      end
  | _, _ => Raise "KeyError"
  end.

(** ** Data loading *)

(** The data directory as [load_data] sees it: a file name is absent, or
    maps to the outcome of [pd.read_csv] on that file. *)
Definition safe_read (dir : gmap string (result DataFrame)) (name : string)
    (cols : option (list string)) : DataFrame :=
  match dir !! name with
  | Some (Ok df) => df
  | Some (Raise _) => DataFrame_new
  | None =>
      match cols with
      | Some (c :: cs) => DataFrame_columns (c :: cs)
      | _ => DataFrame_new
      end
  end.

Definition countries_cols : list string :=
  ["CountryID"; "CountryName"; "GDP_BillionUSD"; "MiningRevenue_BillionUSD"; "KeyProjects"].
Definition minerals_cols : list string :=
  ["MineralID"; "MineralName"; "Description"].
Definition production_cols : list string :=
  ["CountryID"; "MineralID"; "Production_tonnes"; "ExportValue_BillionUSD"].
Definition sites_cols : list string :=
  ["SiteID"; "SiteName"; "CountryID"; "MineralID"; "Latitude"; "Longitude"; "Production_tonnes"].

(** [t.merge(countries, on="CountryID").merge(minerals, on="MineralID")] *)
Definition join (t countries minerals : DataFrame) : result DataFrame :=
  rbind (merge t countries "CountryID") (fun j => merge j minerals "MineralID").

(** One [try: if not t.empty and ...: t = join  except: pass] block. *)
Definition join_or_keep (t countries minerals : DataFrame) : DataFrame :=
  if negb (df_empty t) && negb (df_empty countries) && negb (df_empty minerals)
  then match join t countries minerals with
       | Ok j => j
       | Raise _ => t
       end
  else t.

(** [load_data] (the [st.cache_data] decorator only memoizes the result). *)
Definition load_data (dir : gmap string (result DataFrame))
    : DataFrame * DataFrame * DataFrame * DataFrame :=
  let countries := safe_read dir "countries.csv" (Some countries_cols) in
  let minerals := safe_read dir "minerals.csv" (Some minerals_cols) in
  let production := safe_read dir "production_stats.csv" (Some production_cols) in
  let sites := safe_read dir "sites.csv" (Some sites_cols) in
  let production := join_or_keep production countries minerals in
  let sites := join_or_keep sites countries minerals in
  (countries, minerals, production, sites).

(** ** The sites map *)

(** A Python float: not-a-number, or a finite value (an exact rational). *)
Inductive PyFloat :=
| FNaN
| FNum (q : Q).

(** What [build_map] puts on the map.  The popup keeps the four values the
    HTML label is formatted from. *)
Record Popup := mkPopup {
  popup_site : Cell;
  popup_mineral : Cell;
  popup_country : Cell;
  popup_production : Z
}.

Record Marker := mkMarker {
  marker_location : PyFloat * PyFloat;
  marker_color : string;
  marker_popup : Popup
}.

Record FoliumMap := mkFoliumMap {
  map_location : PyFloat * PyFloat;
  zoom_start : Z;
  markers : list Marker
}.

(** [px.colors.qualitative.Plotly] *)
Definition palette : list string :=
  ["#636EFA"; "#EF553B"; "#00CC96"; "#AB63FA"; "#FFA15A";
   "#19D3F3"; "#FF6692"; "#B6E880"; "#FF97FF"; "#FECB52"].

(** [Series.mean()]: missing values are skipped; the mean of nothing is
    NaN.  The rounding of [float64] arithmetic is not modelled: this is the
    exact mean, and nothing below depends on its last digits. *)
Definition present (x : PyFloat) : option Q :=
  match x with FNum q => Some q | FNaN => None end.

Definition mean (xs : list PyFloat) : PyFloat :=
  match omap present xs with
  | [] => FNaN
  | q :: qs =>
      FNum (Qdiv (fold_right Qplus 0%Q (q :: qs))
                 (inject_Z (Z.of_nat (length (q :: qs)))))
  end.

(** [x or 0]: a float is falsy only when it equals zero; NaN is truthy. *)
Definition or_zero (x : PyFloat) : PyFloat :=
  match x with
  | FNaN => FNaN
  | FNum q => if Qeq_bool q 0 then FNum 0 else FNum q
  end.

(** [Series.dropna()] and [Series.unique()] (order of first occurrence). *)
Definition dropna (l : list Cell) : list Cell :=
  List.filter (fun c => match c with NaN => false | _ => true end) l.

Fixpoint unique_from (seen l : list Cell) : list Cell :=
  match l with
  | [] => []
  | c :: l' =>
      if existsb (cell_eqb c) seen then unique_from seen l'
      else c :: unique_from (c :: seen) l'
  end.

Definition unique (l : list Cell) : list Cell := unique_from [] l.

(** [{minerals[i]: palette[i % len(palette)] for i in range(len(minerals))}] *)
Definition make_cmap (minerals : list Cell) : list (Cell * string) :=
  imap (fun i m => (m, default "" (palette !! (i mod length palette)%nat))) minerals.

(** [cmap.get(key, dflt)] *)
Fixpoint cmap_get (cmap : list (Cell * string)) (key : Cell) (dflt : string) : string :=
  match cmap with
  | [] => dflt
  | (k, v) :: rest => if cell_eqb k key then v else cmap_get rest key dflt
  end.

(** [df_sites["MineralName"] == sel], for one row. *)
Definition cell_is (c : Cell) (sel : string) : bool :=
  match c with
  | CStr s => (s =? sel)%string
  | _ => false
  end.

(** folium's [validate_location], which [folium.Map] and
    [folium.CircleMarker] apply to their location: a NaN coordinate is
    refused with [ValueError]. *)
Definition is_nan (x : PyFloat) : bool :=
  match x with FNaN => true | FNum _ => false end.

Definition validate_location (loc : PyFloat * PyFloat) : result (PyFloat * PyFloat) :=
  if is_nan (fst loc) || is_nan (snd loc) then Raise "ValueError" else Ok loc.

Section BuildMap.

(** Python's [float(str)] and [int(str)] ([None]: [ValueError]) and
    pandas' [to_numeric(..., errors="coerce")] on a text value. *)
Variable str_to_float : string -> option PyFloat.
Variable str_to_int : string -> option Z.
Variable to_numeric_str : string -> PyFloat.

(** [float(x)] *)
Definition py_float (c : Cell) : result PyFloat :=
  match c with
  | NaN => Ok FNaN
  | CInt z => Ok (FNum (inject_Z z))
  | CFloat q => Ok (FNum q)
  | CStr s =>
      match str_to_float s with
      | Some x => Ok x
      | None => Raise "ValueError"
      end
  end.

(** [int(x)]: truncation toward zero; NaN cannot be converted. *)
Definition py_int (c : Cell) : result Z :=
  match c with
  | NaN => Raise "ValueError"
  | CInt z => Ok z
  | CFloat q => Ok (Z.quot (Qnum q) (Zpos (Qden q)))
  | CStr s =>
      match str_to_int s with
      | Some z => Ok z
      | None => Raise "ValueError"
      end
  end.

(** [pd.to_numeric(x, errors="coerce")] *)
Definition to_numeric (c : Cell) : PyFloat :=
  match c with
  | NaN => FNaN
  | CInt z => FNum (inject_Z z)
  | CFloat q => FNum q
  | CStr s => to_numeric_str s
  end.

(** [pd.to_numeric(df[name], errors="coerce").mean() if name in df.columns else 0] *)
Definition column_mean (df : DataFrame) (name : string) : PyFloat :=
  match col_index name (columns df) with
  | Some i => mean (map (fun r => to_numeric (cell r i)) (rows df))
  | None => FNum 0
  end.

(** The [try] block of the row loop: [None] when it raises. *)
Definition row_coords (cols : list string) (r : list Cell) : option (PyFloat * PyFloat) :=
  match row_get cols r "Latitude" with
  | None => None
  | Some cla =>
      match py_float cla with
      | Raise _ => None
      | Ok la =>
          match row_get cols r "Longitude" with
          | None => None
          | Some clo =>
              match py_float clo with
              | Raise _ => None
              | Ok lo => Some (la, lo)
              end
          end
      end
  end.

(** The loop [for _, r in df.iterrows()]: the markers added to the
    cluster, in order.  The conversion of the production to [int] and the
    construction of the marker are outside the [try]. *)
Fixpoint add_markers (cmap : list (Cell * string)) (cols : list string)
    (rs : list (list Cell)) : result (list Marker) :=
  match rs with
  | [] => Ok []
  | r :: rest =>
      match row_coords cols r with
      | None => add_markers cmap cols rest
      | Some loc =>
          rbind (py_int (default (CInt 0) (row_get cols r "Production_tonnes")))
            (fun tonnes =>
               rbind (validate_location loc) (fun loc =>
                 let mk :=
                   {| marker_location := loc;
                      marker_color :=
                        match row_get cols r "MineralName" with
                        | Some k => cmap_get cmap k "#ffffff"
                        | None => "#ffffff"
                        end;
                      marker_popup :=
                        {| popup_site := default (CStr "") (row_get cols r "SiteName");
                           popup_mineral := default (CStr "") (row_get cols r "MineralName");
                           popup_country := default (CStr "") (row_get cols r "CountryName");
                           popup_production := tonnes |} |} in
                 rbind (add_markers cmap cols rest) (fun ms => Ok (mk :: ms))))
      end
  end.

(** [df_sites if sel in (None, "All") else df_sites[df_sites["MineralName"] == sel]] *)
Definition select_mineral (df_sites : DataFrame) (sel : option string)
    : result DataFrame :=
  match sel with
  | None => Ok df_sites
  | Some s =>
      if (s =? "All")%string then Ok df_sites
      else match col_index "MineralName" (columns df_sites) with
           | None => Raise "KeyError"
           | Some i =>
               Ok {| columns := columns df_sites;
                     rows := List.filter (fun r => cell_is (cell r i) s) (rows df_sites) |}
           end
  end.

(** [df["MineralName"].dropna().unique().tolist()] *)
Definition mineral_names (df : DataFrame) : result (list Cell) :=
  match col_index "MineralName" (columns df) with
  | None => Raise "KeyError"
  | Some i => Ok (unique (dropna (map (fun r => cell r i) (rows df))))
  end.

Definition build_map (df_sites : DataFrame) (sel : option string)
    : result (option FoliumMap) :=
  if df_empty df_sites then Ok None
  else
    rbind (select_mineral df_sites sel) (fun df =>
      let lat := column_mean df "Latitude" in
      let lon := column_mean df "Longitude" in
      rbind (validate_location (or_zero lat, or_zero lon)) (fun center =>
        rbind (mineral_names df) (fun minerals =>
          let cmap := make_cmap minerals in
          rbind (add_markers cmap (columns df) (rows df)) (fun ms =>
            Ok (Some {| map_location := center;
                        zoom_start := 3;
                        markers := ms |}))))).

End BuildMap.

(** ** Concrete instances used in the examples below *)

(** A stand-in for werkzeug's hashing that satisfies the law assumed of it:
    the salt is ignored, the hash is the password itself, and verification
    compares the two. *)
Definition plain_hash (salt : nat) (pw : string) : string := pw.

Definition plain_check (h pw : string) : bool := (h =? pw)%string.

Definition env0 : InitEnv nat :=
  {| seed_salt := 0%nat; seed_time := "2024-01-01T00:00:00" |}.

(** A store in which the second account, [bob], gave [alice] as its
    email. *)
Definition bob : User :=
  {| user_id := 2; username := "bob"; password_hash := plain_hash 1 "pw";
     role := "Researcher"; email := Some "alice";
     created_at := "2024-01-02T00:00:00" |}.

Definition store_with_bob : UsersData :=
  {| users := users (seed_store plain_hash env0) ++ [bob]; next_id := 3 |}.

(** Two accounts that the identifier [alice] names: the first by its
    username, the second by its email. *)
Definition alice1 : User :=
  {| user_id := 2; username := "alice"; password_hash := plain_hash 1 "pw1";
     role := "Investor"; email := Some "alice@minerals.local";
     created_at := "2024-01-02T00:00:00" |}.

Definition alice2 : User :=
  {| user_id := 3; username := "carol"; password_hash := plain_hash 2 "pw2";
     role := "Researcher"; email := Some "alice";
     created_at := "2024-01-03T00:00:00" |}.

Definition store_two_alices : UsersData :=
  {| users := users (seed_store plain_hash env0) ++ [alice1; alice2]; next_id := 4 |}.

(** ** The inner join, as the specification words it *)

(** Two ids match, as the join pairs rows: the same text, the same
    integer, the same float, two missing ids, or an integer and a float
    that are equal once the integer is converted to [float64]: the
    integer itself up to 2^53 in absolute value, its rounding beyond. *)
Definition ids_match (a b : Cell) : Prop :=
  match a, b with
  | NaN, NaN => True
  | CStr s, CStr t => s = t
  | CInt x, CInt y => x = y
  | CFloat p, CFloat q => (p == q)%Q
  | CInt x, CFloat q | CFloat q, CInt x =>
      if (Z.abs x <=? 2 ^ 53)%Z then (inject_Z x == q)%Q
      else (inject_Z (float64_of_Z x) == q)%Q
  | _, _ => False
  end.

(** [row] pairs a row of [l] with a row of [r] whose value under [key]
    matches: it is the row of [l] followed by that of [r] without its
    key. *)
Definition joins_on (key : string) (l r : DataFrame) (row : list Cell) : Prop :=
  exists a b i j,
    col_index key (columns l) = Some i
    /\ col_index key (columns r) = Some j
    /\ In a (rows l) /\ In b (rows r)
    /\ ids_match (cell a i) (cell b j)
    /\ row = a ++ remove_nth j b.

(** [out] is the view of [t] the specification describes: the inner join
    with [countries] on the country id and then with [minerals] on the
    mineral id, or [t] itself when the join raises. *)
Definition joined_view (t countries minerals out : DataFrame) : Prop :=
  match join t countries minerals with
  | Ok j =>
      out = j
      /\ exists mid,
           merge t countries "CountryID" = Ok mid
           /\ (forall row, In row (rows mid) <-> joins_on "CountryID" t countries row)
           /\ (forall row, In row (rows j) <-> joins_on "MineralID" mid minerals row)
  | Raise _ => out = t
  end.

(** The two views [load_data] returns, third and fourth of its results. *)
Definition production_view (dir : gmap string (result DataFrame)) : DataFrame :=
  snd (fst (load_data dir)).

Definition sites_view (dir : gmap string (result DataFrame)) : DataFrame :=
  snd (load_data dir).

(** The join of [t] is carried out: the three tables are non-empty and
    neither merge raises. *)
Definition join_performed (t countries minerals : DataFrame) : Prop :=
  df_empty t = false /\ df_empty countries = false /\ df_empty minerals = false
  /\ exists j, join t countries minerals = Ok j.

(** The values under [name] in two rows match. *)
Definition same_key (name : string) (cols1 : list string) (r1 : list Cell)
    (cols2 : list string) (r2 : list Cell) : Prop :=
  exists k1 k2,
    row_get cols1 r1 name = Some k1 /\ row_get cols2 r2 name = Some k2
    /\ ids_match k1 k2.

(** [row], a row of the view [j], is drawn from a row of [t], a country
    with the same [CountryID] and a mineral with the same [MineralID]: it
    keeps every field of the source row and carries the names of that
    country and that mineral. *)
Definition drawn_from (t countries minerals j : DataFrame) (row : list Cell) : Prop :=
  exists tr cr mr,
    In tr (rows t) /\ In cr (rows countries) /\ In mr (rows minerals)
    /\ same_key "CountryID" (columns t) tr (columns countries) cr
    /\ same_key "MineralID" (columns t) tr (columns minerals) mr
    /\ row_get (columns j) row "CountryName"
       = row_get (columns countries) cr "CountryName"
    /\ row_get (columns j) row "MineralName"
       = row_get (columns minerals) mr "MineralName"
    /\ (forall name, In name (columns t) ->
          row_get (columns j) row name = row_get (columns t) tr name).

(** The tables of the specification's scenario. *)
Definition zed_countries : DataFrame :=
  {| columns := countries_cols;
     rows := [[CInt 1; CStr "Zed"; CInt 10; CInt 2; CStr "P1"]] |}.

Definition zed_minerals : DataFrame :=
  {| columns := minerals_cols; rows := [[CInt 1; CStr "Cobalt"; CStr "d"]] |}.

Definition zed_production : DataFrame :=
  {| columns := production_cols; rows := [[CInt 1; CInt 1; CInt 100; CInt 5]] |}.

Definition zed_dir : gmap string (result DataFrame) :=
  {[ "countries.csv" := Ok zed_countries;
     "minerals.csv" := Ok zed_minerals;
     "production_stats.csv" := Ok zed_production ]}.

(** The scenario with a country whose name is missing in [countries.csv],
    and the scenario without [minerals.csv]. *)
Definition unnamed_country_dir : gmap string (result DataFrame) :=
  {[ "countries.csv" :=
       Ok {| columns := countries_cols;
             rows := [[CInt 1; NaN; CInt 10; CInt 2; CStr "P1"]] |};
     "minerals.csv" := Ok zed_minerals;
     "production_stats.csv" := Ok zed_production ]}.

Definition no_minerals_dir : gmap string (result DataFrame) :=
  {[ "countries.csv" := Ok zed_countries;
     "production_stats.csv" := Ok zed_production ]}.

(** A directory whose four files all make [read_csv] raise [e]. *)
Definition unreadable_dir (e : string) : gmap string (result DataFrame) :=
  {[ "countries.csv" := Raise e; "minerals.csv" := Raise e;
     "production_stats.csv" := Raise e; "sites.csv" := Raise e ]}.

(** Joined site tables of one row: a cobalt site with coordinates, and a
    site whose coordinates are missing in [sites.csv]. *)
Definition site_view_cols : list string :=
  sites_cols ++ ["CountryName"; "GDP_BillionUSD"; "MiningRevenue_BillionUSD";
                 "KeyProjects"; "MineralName"; "Description"].

Definition cobalt_site : DataFrame :=
  {| columns := site_view_cols;
     rows := [[CInt 1; CStr "Mine"; CInt 1; CInt 1; CFloat (3 # 2); CFloat (5 # 2);
               CInt 100; CStr "Zed"; CInt 10; CInt 2; CStr "P1";
               CStr "Cobalt"; CStr "d"]] |}.

Definition uncharted_site : DataFrame :=
  {| columns := site_view_cols;
     rows := [[CInt 1; CStr "Mine"; CInt 1; CInt 1; NaN; NaN;
               CInt 100; CStr "Zed"; CInt 10; CInt 2; CStr "P1";
               CStr "Cobalt"; CStr "d"]] |}.

(** ** Sessions, login and page routing *)

(** The three keys of [st.session_state] the program uses. *)
Record Session := mkSession {
  logged_in : bool;
  session_username : string;
  session_role : string
}.

(** The defaults set at the top of the script when a key is missing; this
    is also the session after "Logout", which deletes every key and
    reruns the script. *)
Definition fresh_session : Session :=
  {| logged_in := false; session_username := ""; session_role := "" |}.

Definition logout (s : Session) : Session := fresh_session.

Inductive LoginOutcome :=
| LoggedIn
| InvalidCredentials.

Section Login.

Context {Salt : Type}.
Variable generate_password_hash : Salt -> string -> string.
Variable check_password_hash : string -> string -> bool.

(** The body of [if st.button("Login")] in [auth_section]. *)
Definition login (env : InitEnv Salt) (file : option UsersData) (s : Session)
    (login_id pw : string) : LoginOutcome * Session :=
  match authenticate generate_password_hash check_password_hash env file
          (strip login_id) pw with
  | Some user =>
      (LoggedIn,
       {| logged_in := true; session_username := username user;
          session_role := role user |})
  | None => (InvalidCredentials, s)
  end.

End Login.

(** What [main] renders. *)
Inductive View :=
| AuthSection
| InvestorView
| ResearcherView
| AdminView.

(** The options of the "Page" select box. *)
Definition pages (urole : string) : list string :=
  if (urole =? "Investor")%string then ["Investor"]
  else if (urole =? "Researcher")%string then ["Researcher"; "Home"]
  else if (urole =? "Administrator")%string then ["Admin"; "Home"]
  else ["Home"].

(** The [if page == ...] chain at the end of [main]. *)
Definition page_view (urole page : string) : View :=
  if (page =? "Investor")%string then InvestorView
  else if (page =? "Researcher")%string then ResearcherView
  else if (page =? "Admin")%string then AdminView
  else if (urole =? "Administrator")%string then AdminView
  else if (urole =? "Researcher")%string then ResearcherView
  else InvestorView.

(** [main], with [page] the option picked in the select box. *)
Definition main (s : Session) (page : string) : View :=
  if negb (logged_in s) then AuthSection
  else page_view (session_role s) page.

(** ** CSV import *)

(** The "Import CSV" block of [admin_view]: [parsed] is what [pd.read_csv]
    will make of the uploaded bytes once they are written.  [None] is the
    [st.error] branch; otherwise the directory afterwards and the tables
    reloaded from it. *)
Definition import_csv (dir : gmap string (result DataFrame)) (fname : string)
    (parsed : result DataFrame)
    : option (gmap string (result DataFrame)
              * (DataFrame * DataFrame * DataFrame * DataFrame)) :=
  if existsb (String.eqb fname)
       ["countries.csv"; "minerals.csv"; "production_stats.csv"; "sites.csv"]
  then let dir' := <[fname := parsed]> dir in Some (dir', load_data dir')
  else None.

(** ** The logo finder *)

(** [needle in s] *)
Fixpoint contains (needle s : string) : bool :=
  String.prefix needle s
  || match s with
     | EmptyString => false
     | String _ s' => contains needle s'
     end.

(** [list.sort()] on strings, by insertion. *)
Fixpoint insert_sorted (x : string) (l : list string) : list string :=
  match l with
  | [] => [x]
  | y :: l' => if String.leb x y then x :: y :: l' else y :: insert_sorted x l'
  end.

Definition sort_strings (l : list string) : list string :=
  foldr insert_sorted [] l.

Definition ASSETS_DIR : string := "assets".

Definition path_join (d f : string) : string := (d ++ "/" ++ f)%string.

Section FindLogo.

(** [str.lower] *)
Variable lower : string -> string.

Definition is_candidate (fn : string) : bool :=
  let l := lower fn in
  contains "logo" l || contains "african" l || contains "crit" l || contains "min" l.

(** [find_logo]; [listing] is [os.listdir(ASSETS_DIR)], [None] when the
    directory does not exist. *)
Definition find_logo (listing : option (list string)) : option string :=
  match listing with
  | None => None
  | Some files =>
      let candidates := List.filter is_candidate files in
      if existsb (String.eqb "african crit min logo.png") files
      then Some (path_join ASSETS_DIR "african crit min logo.png")
      else match sort_strings candidates with
           | c :: _ => Some (path_join ASSETS_DIR c)
           | [] => None
           end
  end.

End FindLogo.

(** ** Invariants of the user store *)

(** Every id is below [next_id] and no id occurs twice. *)
Definition ids_fresh (d : UsersData) : Prop :=
  Forall (fun u => user_id u < next_id d) (users d)
  /\ NoDup (map user_id (users d)).

Definition usernames_unique (d : UsersData) : Prop :=
  NoDup (map username (users d)).

Definition is_admin (u : User) : bool := (role u =? "Administrator")%string.

(** A string that [strip] changes: it starts or ends with whitespace. *)
Definition padded (s : string) : Prop := strip s <> s.

(** The entry [create_user] appends to the store [d]. *)
Definition created_entry {Salt : Type} (generate_password_hash : Salt -> string -> string)
    (d : UsersData) (salt : Salt) (now uname password urole uemail : string) : User :=
  {| user_id := next_id d; username := uname;
     password_hash := generate_password_hash salt password;
     role := urole;
     email := Some (if (uemail =? "")%string
                    then (uname ++ "@minerals.local")%string else uemail);
     created_at := now |}.

(** An id that compares exactly with any key: a text, or an integer that
    [float64] holds exactly. *)
Definition plain_id (c : Cell) : Prop :=
  match c with
  | CInt z => Z.abs z <= 2 ^ 53
  | CStr _ => True
  | _ => False
  end.

(** The values of [df] under [name] are plain ids, and no two rows carry
    the same one. *)
Definition keys_distinct (name : string) (df : DataFrame) : Prop :=
  forall k,
    col_index name (columns df) = Some k ->
    Forall (fun r => plain_id (cell r k)) (rows df)
    /\ forall i1 i2 b1 b2,
         rows df !! i1 = Some b1 -> rows df !! i2 = Some b2 -> i1 <> i2 ->
         cell b1 k <> cell b2 k.


Definition zed_sites : DataFrame :=
  {| columns := sites_cols;
     rows := [[CInt 1; CStr "Mine"; CInt 1; CInt 1; CFloat (3 # 2); CFloat (5 # 2);
               CInt 100]] |}.

Definition sites_only_dir : gmap string (result DataFrame) :=
  {[ "countries.csv" := Ok zed_countries; "sites.csv" := Ok zed_sites ]}.

(** A joined table with a cobalt site and a gold site. *)
Definition two_sites : DataFrame :=
  {| columns := site_view_cols;
     rows := [[CInt 1; CStr "Mine"; CInt 1; CInt 1; CFloat (3 # 2); CFloat (5 # 2);
               CInt 100; CStr "Zed"; CInt 10; CInt 2; CStr "P1";
               CStr "Cobalt"; CStr "d"];
              [CInt 2; CStr "Pit"; CInt 1; CInt 2; CFloat (7 # 2); CFloat (9 # 2);
               CInt 50; CStr "Zed"; CInt 10; CInt 2; CStr "P1";
               CStr "Gold"; CStr "g"]] |}.

(** ** The filter and the sequence of distinct names, as the
    specification words them *)





(** A joined table with a cobalt site and a site whose coordinates are
    missing. *)
Definition half_charted_sites : DataFrame :=
  {| columns := site_view_cols;
     rows := [[CInt 1; CStr "Mine"; CInt 1; CInt 1; CFloat (3 # 2); CFloat (5 # 2);
               CInt 100; CStr "Zed"; CInt 10; CInt 2; CStr "P1";
               CStr "Cobalt"; CStr "d"];
              [CInt 2; CStr "Pit"; CInt 1; CInt 1; NaN; NaN;
               CInt 50; CStr "Zed"; CInt 10; CInt 2; CStr "P1";
               CStr "Cobalt"; CStr "d"]] |}.

(** The scenario with a country whose id is the float 2^53, as
    [read_csv] makes of [9007199254740992.0], and a production record for
    the integer id 2^53 + 1. *)
Definition big_id_dir : gmap string (result DataFrame) :=
  {[ "countries.csv" :=
       Ok {| columns := countries_cols;
             rows := [[CFloat (9007199254740992 # 1); CStr "Zed"; CInt 10; CInt 2;
                       CStr "P1"]] |};
     "minerals.csv" := Ok zed_minerals;
     "production_stats.csv" :=
       Ok {| columns := production_cols;
             rows := [[CInt 9007199254740993; CInt 1; CInt 100; CInt 5]] |} ]}.

(** * Properties *)

(** ** The user store *)

Lemma names_spec login_id u :
  names login_id u = true <-> login_id = username u \/ email u = Some login_id.
Proof.
  unfold names. rewrite orb_true_iff, String.eqb_eq.
  destruct (email u) as [e|]; [rewrite String.eqb_eq|];
    intuition (try discriminate; congruence).
Qed.

Section UserStoreFacts.

Context {Salt : Type}.
Variable generate_password_hash : Salt -> string -> string.
Variable check_password_hash : string -> string -> bool.
Hypothesis check_generate :
  forall salt pw, check_password_hash (generate_password_hash salt pw) pw = true.

Abbreviation auth_loop := (authenticate_loop check_password_hash).
Abbreviation accepts login_id password :=
  (fun u => names login_id u && check_password_hash (password_hash u) password).

Lemma authenticate_loop_find us login_id password :
  auth_loop us login_id password = List.find (accepts login_id password) us.
Proof.
  induction us as [|u us IH]; simpl; [reflexivity|].
  destruct (names login_id u); simpl; [|exact IH].
  destruct (check_password_hash (password_hash u) password); [reflexivity|exact IH].
Qed.

Lemma authenticate_loop_app l1 l2 login_id password :
  auth_loop (l1 ++ l2) login_id password =
  match auth_loop l1 login_id password with
  | Some u => Some u
  | None => auth_loop l2 login_id password
  end.
Proof.
  induction l1 as [|u l1 IH]; simpl; [reflexivity|].
  destruct (names login_id u); [|exact IH].
  destruct (check_password_hash (password_hash u) password); [reflexivity|exact IH].
Qed.

Lemma authenticate_loop_Some us login_id password u :
  auth_loop us login_id password = Some u ->
  In u us /\ names login_id u = true
  /\ check_password_hash (password_hash u) password = true.
Proof.
  induction us as [|x us IH]; simpl; [discriminate|].
  destruct (names login_id x) eqn:Hn.
  - destruct (check_password_hash (password_hash x) password) eqn:Hc.
    + intros [= <-]. auto.
    + intros H. destruct (IH H) as (? & ? & ?). auto.
  - intros H. destruct (IH H) as (? & ? & ?). auto.
Qed.

Lemma authenticate_loop_None us login_id password :
  auth_loop us login_id password = None <->
  Forall (fun x => accepts login_id password x = false) us.
Proof.
  induction us as [|x us IH]; simpl.
  - split; auto.
  - destruct (names login_id x) eqn:Hn; simpl.
    + destruct (check_password_hash (password_hash x) password) eqn:Hc.
      * split; [discriminate|]. intros H. inversion H; subst.
        rewrite Hn, Hc in *. discriminate.
      * rewrite IH. split.
        -- intros H. constructor; [now rewrite Hn, Hc|exact H].
        -- intros H. now inversion H.
    + rewrite IH. split.
      * intros H. constructor; [now rewrite Hn|exact H].
      * intros H. now inversion H.
Qed.

Lemma authenticate_loop_first us login_id password u :
  auth_loop us login_id password = Some u <->
  exists before after,
    us = before ++ u :: after
    /\ Forall (fun x => accepts login_id password x = false) before
    /\ accepts login_id password u = true.
Proof.
  split.
  - induction us as [|x us IH]; simpl; [discriminate|].
    destruct (accepts login_id password x) eqn:Hx.
    + apply andb_true_iff in Hx as [Hn Hc]. rewrite Hn, Hc.
      intros [= <-]. exists [], us. simpl. rewrite Hn, Hc. auto.
    + intros H.
      assert (Hrest : auth_loop us login_id password = Some u).
      { destruct (names login_id x); [|exact H].
        simpl in Hx. rewrite Hx in H. exact H. }
      destruct (IH Hrest) as (before & after & -> & Hb & Hu).
      exists (x :: before), after. split; [reflexivity|]. split; [|exact Hu].
      constructor; assumption.
  - intros (before & after & -> & Hb & Hu).
    rewrite authenticate_loop_app.
    apply authenticate_loop_None in Hb. rewrite Hb. simpl.
    apply andb_true_iff in Hu as [Hn Hc]. now rewrite Hn, Hc.
Qed.

Lemma filter_keep_all (P : User -> Prop) `{forall u, Decision (P u)} (us : list User) :
  Forall P us -> filter P us = us.
Proof.
  induction 1 as [|x l Hx _ IH]; [reflexivity|].
  rewrite filter_cons. destruct (decide (P x)); [|contradiction].
  now rewrite IH.
Qed.

(** C9: [authenticate] returns the first user, in store order, whose
    username or email equals the identifier and whose hash verifies the
    password, and nothing when there is none.  A user the identifier names
    whose hash does not verify does not end the search: when every user
    before [u] fails verification and [u] is named and verifies, [u] is
    returned. *)
Theorem authenticate_first_verified env file login_id password :
  let us := users (load_users generate_password_hash env file) in
  let result := authenticate generate_password_hash check_password_hash
                  env file login_id password in
  let verified u :=
    (login_id = username u \/ email u = Some login_id)
    /\ check_password_hash (password_hash u) password = true in
  (forall u, result = Some u <->
        exists before after,
          us = before ++ u :: after
          /\ Forall (fun x => ~ verified x) before
          /\ verified u)
  /\ (result = None <-> Forall (fun x => ~ verified x) us)
  /\ (forall before u after,
        us = before ++ u :: after ->
        Forall (fun x => check_password_hash (password_hash x) password = false) before ->
        verified u ->
        result = Some u).
Proof.
  intros us result verified. unfold result, authenticate. fold us.
  assert (Hacc : forall x, accepts login_id password x = true <-> verified x).
  { intros x. unfold verified. now rewrite andb_true_iff, names_spec. }
  assert (Hrej : forall l, Forall (fun x => accepts login_id password x = false) l
                           <-> Forall (fun x => ~ verified x) l).
  { intros l. apply Forall_iff. intros x. rewrite <- Hacc.
    now destruct (accepts login_id password x). }
  split; [|split].
  - intros u. rewrite authenticate_loop_first. split.
    + intros (b & a & E & Hb & Hu). exists b, a.
      split; [exact E|]. split; [now apply Hrej|now apply Hacc].
    + intros (b & a & E & Hb & Hu). exists b, a.
      split; [exact E|]. split; [now apply Hrej|now apply Hacc].
  - rewrite authenticate_loop_None. apply Hrej.
  - intros before u after E Hb Hu.
    apply authenticate_loop_first. exists before, after.
    split; [exact E|]. split; [|now apply Hacc].
    eapply Forall_impl; [exact Hb|]. simpl. intros x ->. apply andb_false_r.
Qed.

(** C10: with an id of at least 2 in the number input, "Delete User"
    leaves in the file exactly the users whose id differs from it, in
    their order, and the same [next_id]; nothing changes when no user has
    that id; and every account with id 1 is still there. *)
Theorem admin_delete_user_frame env file uid :
  2 <= uid ->
  let data := load_users generate_password_hash env file in
  exists data',
    admin_delete_user generate_password_hash env file uid = Some data'
    /\ users data' = filter (fun u => user_id u <> uid) (users data)
    /\ next_id data' = next_id data
    /\ (forall u, In u (users data') <-> In u (users data) /\ user_id u <> uid)
    /\ (Forall (fun u => user_id u <> uid) (users data) -> data' = data)
    /\ (forall u, In u (users data) -> user_id u = 1 -> In u (users data')).
Proof.
  intros Huid data.
  exists {| users := filter (fun u => user_id u <> uid) (users data);
            next_id := next_id data |}.
  assert (Hin : forall u,
    In u (filter (fun u => user_id u <> uid) (users data))
    <-> In u (users data) /\ user_id u <> uid).
  { intros u. rewrite <- !list_elem_of_In, list_elem_of_filter. tauto. }
  split; [|split; [reflexivity|split; [reflexivity|split; [exact Hin|split]]]].
  - unfold admin_delete_user. fold data. unfold save_users.
    destruct (users data) eqn:E; [|reflexivity].
    destruct data as [us n]. simpl in *. subst us. reflexivity.
  - intros Hall. simpl. rewrite (filter_keep_all _ _ Hall).
    destruct data; reflexivity.
  - intros u Hu H1. apply Hin. split; [exact Hu|lia].
Qed.

(** C2, as the code has it: registering as Administrator with a wrong
    code never registers and leaves the file as it was; the error
    reported is [InvalidAdminCodeError] exactly when the two passwords
    are equal and username and password are non-empty, whether or not the
    username is taken; it is [PasswordMismatchError] when the passwords
    differ and [MissingFieldsError] when they are equal and the username
    or the password is empty. *)
Theorem register_admin_wrong_code environ env file salt now
    u uemail pw conf admin_code :
  admin_code <> ADMIN_SECRET environ ->
  let r := register generate_password_hash environ env file salt now
             u uemail "Administrator" pw conf admin_code in
  snd r = file
  /\ fst r <> Registered
  /\ fst r <> DuplicateUsernameError
  /\ (fst r = InvalidAdminCodeError <-> pw = conf /\ u <> "" /\ pw <> "")
  /\ (pw <> conf -> fst r = PasswordMismatchError)
  /\ (pw = conf -> u = "" \/ pw = "" -> fst r = MissingFieldsError).
Proof.
  intros Hcode r. unfold r, register.
  apply String.eqb_neq in Hcode. rewrite Hcode. simpl.
  destruct (String.eqb_spec pw conf) as [Hpc|Hpc]; simpl;
    [destruct (String.eqb_spec u "") as [Hu|Hu]; simpl;
       [|destruct (String.eqb_spec pw "") as [Hp|Hp]; simpl]|];
    intuition (try discriminate; try congruence).
Qed.

(** C1, as the code has it: after [create_user uname password ...],
    [authenticate uname password] returns a user whom [uname] names (by
    username or by email) and whose hash verifies the password; its
    username is [uname] provided every account already stored whose
    email is [uname] and whose hash verifies the password has that
    username.  On every store, [authenticate] returns nothing when the
    password verifies against no user the identifier names, and nothing
    when no username and no email equals the identifier. *)
Theorem authenticate_after_create_user env file salt now uname password urole uemail :
  let old := users (load_users generate_password_hash env file) in
  let file' := create_user generate_password_hash env file salt now
                 uname password urole uemail in
  (exists u,
      authenticate generate_password_hash check_password_hash
        env file' uname password = Some u
      /\ names uname u = true
      /\ check_password_hash (password_hash u) password = true
      /\ ((forall x, In x old -> email x = Some uname ->
                     check_password_hash (password_hash x) password = true ->
                     username x = uname) ->
          username u = uname))
  /\ (forall f login_id pw,
        Forall (fun x => names login_id x = true ->
                         check_password_hash (password_hash x) pw = false)
               (users (load_users generate_password_hash env f)) ->
        authenticate generate_password_hash check_password_hash
          env f login_id pw = None)
  /\ (forall f login_id pw,
        Forall (fun x => username x <> login_id /\ email x <> Some login_id)
               (users (load_users generate_password_hash env f)) ->
        authenticate generate_password_hash check_password_hash
          env f login_id pw = None).
Proof.
  intros old file'. split; [|split].
  - unfold file', create_user, save_users, authenticate. simpl. fold old.
    rewrite authenticate_loop_app.
    destruct (auth_loop old uname password) as [u|] eqn:E.
    + exists u. apply authenticate_loop_Some in E as (Hin & Hn & Hc).
      repeat split; try assumption.
      intros Hold. unfold names in Hn. apply orb_true_iff in Hn as [Hn|Hn].
      * apply String.eqb_eq in Hn. congruence.
      * destruct (email u) as [e|] eqn:He; [|discriminate].
        apply String.eqb_eq in Hn. subst e. now apply Hold.
    + eexists. simpl. unfold names at 1. simpl.
      rewrite String.eqb_refl, check_generate. simpl.
      repeat split; try reflexivity.
      * unfold names. simpl. now rewrite String.eqb_refl.
      * apply check_generate.
  - intros f login_id pw H. unfold authenticate.
    apply authenticate_loop_None. eapply Forall_impl; [exact H|].
    simpl. intros x Hx. destruct (names login_id x); [|reflexivity].
    now rewrite Hx.
  - intros f login_id pw H. unfold authenticate.
    apply authenticate_loop_None. eapply Forall_impl; [exact H|].
    simpl. intros x [Hu He]. unfold names.
    assert (E1 : (login_id =? username x)%string = false)
      by (apply String.eqb_neq; congruence).
    rewrite E1. destruct (email x) as [e|]; [|reflexivity]. simpl.
    assert (E2 : (login_id =? e)%string = false)
      by (apply String.eqb_neq; congruence).
    now rewrite E2.
Qed.

(** An account that [authenticate] already returns for [uname] and
    [password] is still the one returned after [create_user]: the new
    entry is appended after it. *)
Lemma authenticate_keeps_earlier_match env file salt now uname password urole uemail u :
  authenticate generate_password_hash check_password_hash env file uname password
    = Some u ->
  authenticate generate_password_hash check_password_hash env
    (create_user generate_password_hash env file salt now uname password urole uemail)
    uname password = Some u.
Proof.
  unfold authenticate, create_user, save_users. simpl. intros H.
  now rewrite authenticate_loop_app, H.
Qed.

End UserStoreFacts.

Lemma plain_check_generate salt pw : plain_check (plain_hash salt pw) pw = true.
Proof. apply String.eqb_refl. Qed.

(** C1 at a concrete input: a fresh account on a missing file, a wrong
    password for [admin], and an unknown identifier. *)
Lemma authenticate_after_create_user_witness :
  (exists u,
      authenticate plain_hash plain_check env0
        (create_user plain_hash env0 None 7%nat "2024-02-01T00:00:00"
           "dana" "pw" "Investor" "")
        "dana" "pw" = Some u
      /\ username u = "dana")
  /\ authenticate plain_hash plain_check env0 None "admin" "wrong" = None
  /\ authenticate plain_hash plain_check env0 None "nobody" "password" = None.
Proof.
  destruct (authenticate_after_create_user plain_hash plain_check
              plain_check_generate env0 None 7%nat "2024-02-01T00:00:00"
              "dana" "pw" "Investor" "") as (A & B & C).
  split; [|split].
  - destruct A as (u & Hu & _ & _ & Hname). exists u. split; [exact Hu|].
    apply Hname. simpl. intros x [<-|[]] He. discriminate He.
  - apply B. simpl. repeat constructor.
  - apply C. simpl. repeat constructor; discriminate.
Defined.

(** C1 as stated fails: [bob] registered with the email [alice] and the
    password [pw]; after [create_user "alice" "pw"], authenticating as
    [alice] with [pw] returns [bob]'s record. *)
Lemma authenticate_after_create_user_returns_other :
  authenticate plain_hash plain_check env0
    (create_user plain_hash env0 (Some store_with_bob) 7%nat "2024-02-01T00:00:00"
       "alice" "pw" "Investor" "")
    "alice" "pw" = Some bob
  /\ username bob <> "alice".
Proof. split; [reflexivity|discriminate]. Qed.

(** C9 at a concrete input: [alice] names two accounts; with the second
    account's password the first is passed over and the second returned. *)
Lemma authenticate_first_verified_witness :
  authenticate plain_hash plain_check env0 (Some store_two_alices) "alice" "pw2"
  = Some alice2.
Proof.
  destruct (authenticate_first_verified plain_hash plain_check env0
              (Some store_two_alices) "alice" "pw2") as (_ & _ & H).
  apply (H (users (seed_store plain_hash env0) ++ [alice1]) alice2 []).
  - reflexivity.
  - simpl. repeat constructor.
  - split; [right; reflexivity|reflexivity].
Defined.

(** C10 at a concrete input: deleting id 2 from the store holding the
    seed account and [bob] leaves the seed account alone. *)
Lemma admin_delete_user_frame_witness :
  2 <= 2
  /\ exists data',
       admin_delete_user plain_hash env0 (Some store_with_bob) 2 = Some data'
       /\ users data' = users (seed_store plain_hash env0)
       /\ next_id data' = 3.
Proof.
  split; [lia|].
  destruct (admin_delete_user_frame plain_hash env0 (Some store_with_bob) 2
              ltac:(lia)) as (d & H1 & H2 & H3 & _).
  exists d. split; [exact H1|]. split; [rewrite H2|rewrite H3]; reflexivity.
Defined.

(** C2 at a concrete input: a wrong code with otherwise valid fields. *)
Lemma register_admin_wrong_code_witness :
  "wrong" <> ADMIN_SECRET ∅
  /\ fst (register plain_hash ∅ env0 None 7%nat "2024-02-01T00:00:00"
            "dana" "" "Administrator" "pw" "pw" "wrong") = InvalidAdminCodeError.
Proof.
  assert (H : "wrong" <> ADMIN_SECRET ∅) by (vm_compute; discriminate).
  split; [exact H|].
  destruct (register_admin_wrong_code plain_hash ∅ env0 None 7%nat
              "2024-02-01T00:00:00" "dana" "" "pw" "pw" "wrong" H)
    as (_ & _ & _ & Hiff & _).
  apply Hiff. repeat split; discriminate.
Defined.

(** C2 as stated fails: with a wrong administrator code and two different
    passwords the error reported is the password mismatch. *)
Lemma register_admin_wrong_code_mismatch_first :
  "wrong" <> ADMIN_SECRET ∅
  /\ register plain_hash ∅ env0 None 7%nat "2024-02-01T00:00:00"
       "dana" "" "Administrator" "pw1" "pw2" "wrong"
     = (PasswordMismatchError, None)
  /\ PasswordMismatchError <> InvalidAdminCodeError.
Proof. split; [vm_compute; discriminate|]. split; [reflexivity|discriminate]. Qed.

(** ** Writing the user file *)

Lemma string_app_nil_r (s : string) : (s ++ "")%string = s.
Proof.
  induction s as [|a s IH]; [reflexivity|].
  change (String a (s ++ "")%string = String a s). now rewrite IH.
Qed.

Lemma string_app_assoc (x y z : string) :
  ((x ++ y) ++ z)%string = (x ++ (y ++ z))%string.
Proof.
  induction x as [|a x IH]; [reflexivity|].
  change (String a ((x ++ y) ++ z)%string = String a (x ++ (y ++ z))%string).
  now rewrite IH.
Qed.

Lemma run_steps_writes path chunks : forall disk acc,
  run_steps (<[path := acc]> disk) (map (WriteText path) chunks)
  = <[path := (acc ++ foldr String.append "" chunks)%string]> disk.
Proof.
  induction chunks as [|c cs IH]; intros disk acc.
  - simpl. now rewrite string_app_nil_r.
  - change (run_steps (<[path := acc]> disk) (map (WriteText path) (c :: cs)))
      with (run_steps (alter (fun old => (old ++ c)%string) path (<[path := acc]> disk))
              (map (WriteText path) cs)).
    rewrite alter_insert_eq, IH. simpl. now rewrite string_app_assoc.
Qed.

Lemma foldr_append_app (l1 l2 : list string) :
  foldr String.append "" (l1 ++ l2)
  = (foldr String.append "" l1 ++ foldr String.append "" l2)%string.
Proof.
  induction l1 as [|c l1 IH]; simpl; [reflexivity|].
  now rewrite IH, string_app_assoc.
Qed.

Section SaveUsersFacts.

Variable json_chunks : UsersData -> list string.

Lemma interrupted_save_users data disk n :
  interrupted (S n) (save_users_steps json_chunks data) disk
  = <[USERS_FILE := foldr String.append "" (take n (json_chunks data))]> disk.
Proof.
  unfold interrupted, save_users_steps. simpl take.
  rewrite firstn_app, firstn_map. unfold run_steps. simpl foldl.
  rewrite foldl_app. fold (run_steps (<[USERS_FILE:=""]> disk)
                             (map (WriteText USERS_FILE) (take n (json_chunks data)))).
  rewrite run_steps_writes. simpl String.append.
  destruct (n - length (map (WriteText USERS_FILE) (json_chunks data)))%nat
    as [|k]; simpl; [reflexivity|]. destruct k; reflexivity.
Qed.

(** C7, as the code has it: [save_users] rewrites [USERS_FILE] in place.
    Every operation it performs is on [USERS_FILE] itself (no temporary
    file, no rename) and leaves every other path alone; run to the end
    it leaves exactly the serialized new store, whatever was there; and
    stopped after its first [n + 1] operations it leaves the first [n]
    chunks of the new text, a prefix of it, so stopped right after the
    [open] it leaves an empty file. *)
Theorem save_users_in_place data disk :
  Forall (fun s => step_path s = USERS_FILE) (save_users_steps json_chunks data)
  /\ run_steps disk (save_users_steps json_chunks data)
     = <[USERS_FILE := json_text json_chunks data]> disk
  /\ interrupted 0 (save_users_steps json_chunks data) disk = disk
  /\ (forall n,
        interrupted (S n) (save_users_steps json_chunks data) disk
        = <[USERS_FILE := foldr String.append "" (take n (json_chunks data))]> disk
        /\ json_text json_chunks data
           = (foldr String.append "" (take n (json_chunks data))
              ++ foldr String.append "" (drop n (json_chunks data)))%string)
  /\ interrupted 1 (save_users_steps json_chunks data) disk !! USERS_FILE = Some "".
Proof.
  split; [|split; [|split; [reflexivity|split]]].
  - unfold save_users_steps. constructor; [reflexivity|].
    apply Forall_app. split; [|repeat constructor].
    apply List.Forall_forall. intros s Hs. apply in_map_iff in Hs as (c & <- & _).
    reflexivity.
  - pose proof (interrupted_save_users data disk
                  (length (json_chunks data) + 1)) as H.
    unfold interrupted in H. rewrite firstn_all2 in H.
    + rewrite H, firstn_all2 by lia. reflexivity.
    + unfold save_users_steps. simpl. rewrite length_app, length_map. simpl. lia.
  - intros n. split; [apply interrupted_save_users|].
    unfold json_text. rewrite <- foldr_append_app, firstn_skipn. reflexivity.
  - rewrite interrupted_save_users. simpl. apply lookup_insert_eq.
Qed.

End SaveUsersFacts.

(** C7 as stated fails: whatever the serializer, a save stopped right
    after the [open] has replaced the old text by the empty file, which is
    neither the old store nor the new one. *)
Lemma save_users_not_atomic :
  ~ (forall (json_chunks : UsersData -> list string) data (old : string) n,
       let after :=
         interrupted n (save_users_steps json_chunks data)
           {[USERS_FILE := old]} !! USERS_FILE in
       after = Some old \/ after = Some (json_text json_chunks data)).
Proof.
  intros H.
  specialize (H (fun _ => ["{"; "}"]) store_with_bob "old" 1%nat).
  simpl in H. rewrite interrupted_save_users in H. simpl in H.
  rewrite lookup_insert_eq in H. destruct H as [H|H]; discriminate H.
Qed.

(** ** Data loading *)

Lemma merge_Ok l r on j :
  merge l r on = Ok j ->
  exists i k,
    col_index on (columns l) = Some i
    /\ col_index on (columns r) = Some k
    /\ columns j = merge_columns (columns l) (columns r) on k
    /\ rows j = merge_rows (rows l) (rows r) i k.
Proof.
  unfold merge.
  destruct (col_index on (columns l)) as [i|]; [|discriminate].
  destruct (col_index on (columns r)) as [k|]; [|discriminate].
  intros H. exists i, k.
  destruct (rows l) eqn:El, (rows r) eqn:Er;
    try (injection H as <-; simpl; rewrite ?El, ?Er; auto).
  destruct (eqb _ _); [|discriminate].
  injection H as <-. simpl. auto.
Qed.

Lemma float64_of_Z_small z : Z.abs z <= 2 ^ 53 -> float64_of_Z z = z.
Proof.
  intros H. unfold float64_of_Z.
  destruct (Z.leb_spec (Z.abs z) (2 ^ 53)); [reflexivity|lia].
Qed.

Lemma key_eqb_ids_match a b : key_eqb a b = true <-> ids_match a b.
Proof.
  destruct a as [|x|p|s], b as [|y|q|t]; simpl;
    try (destruct (Z.leb_spec (Z.abs x) (2 ^ 53)) as [Hx|Hx];
         [rewrite (float64_of_Z_small _ Hx)|]);
    try (destruct (Z.leb_spec (Z.abs y) (2 ^ 53)) as [Hy|Hy];
         [rewrite (float64_of_Z_small _ Hy)|]);
    rewrite ?Qeq_bool_iff, ?String.eqb_eq, ?inject_Z_injective;
    intuition (try discriminate; try congruence).
Qed.

Lemma in_merge_rows L R i k row :
  In row (merge_rows L R i k) <->
  exists a b, In a L /\ In b R
              /\ ids_match (cell a i) (cell b k)
              /\ row = a ++ remove_nth k b.
Proof.
  unfold merge_rows. rewrite in_flat_map. split.
  - intros (a & Ha & Hrow). apply in_map_iff in Hrow as (b & <- & Hb).
    apply filter_In in Hb as [Hb Hk]. apply key_eqb_ids_match in Hk.
    exists a, b. auto.
  - intros (a & b & Ha & Hb & Hk & ->). exists a. split; [exact Ha|].
    apply in_map_iff. exists b. split; [reflexivity|].
    apply filter_In. split; [exact Hb|]. now apply key_eqb_ids_match.
Qed.

Lemma merge_joins_on l r on j :
  merge l r on = Ok j ->
  forall row, In row (rows j) <-> joins_on on l r row.
Proof.
  intros H row. destruct (merge_Ok _ _ _ _ H) as (i & k & Hi & Hk & _ & ->).
  rewrite in_merge_rows. unfold joins_on. split.
  - intros (a & b & ?). exists a, b, i, k. tauto.
  - intros (a & b & i' & k' & Hi' & Hk' & ?).
    rewrite Hi in Hi'. rewrite Hk in Hk'.
    injection Hi' as <-. injection Hk' as <-. exists a, b. tauto.
Qed.

Lemma join_or_keep_view t c m :
  df_empty t = false -> df_empty c = false -> df_empty m = false ->
  joined_view t c m (join_or_keep t c m).
Proof.
  intros Ht Hc Hm. unfold joined_view, join_or_keep.
  rewrite Ht, Hc, Hm. simpl.
  destruct (join t c m) as [j|e] eqn:E; [|reflexivity].
  split; [reflexivity|]. unfold join in E.
  destruct (merge t c "CountryID") as [mid|] eqn:E1; simpl in E; [|discriminate].
  exists mid. split; [reflexivity|]. split.
  - now apply merge_joins_on.
  - now apply merge_joins_on.
Qed.

Lemma join_or_keep_skip t c m :
  df_empty t = true \/ df_empty c = true \/ df_empty m = true ->
  join_or_keep t c m = t.
Proof.
  unfold join_or_keep. intros [-> | [-> | ->]]; simpl;
    rewrite ?andb_false_r; reflexivity.
Qed.

(** C4, as the code has it: when the countries, the minerals and the
    source table are all non-empty, the view [load_data] returns for
    production, and likewise for sites, is pandas' inner merge of the
    source table with the countries on [CountryID] and then with the
    minerals on [MineralID]: its rows are exactly the pairings of a row
    with each row of the other table whose id matches, where two ids match
    when they are the same text, the same integer, the same float, both
    missing, or an integer and a float that are equal once the integer is
    converted to [float64]; and it is the source table itself when the
    join raises.  The countries and minerals are returned as read.  On the
    scenario of the specification the production view has exactly one row,
    with [CountryName] Zed, [MineralName] Cobalt and [Production_tonnes]
    100; on the scenario with the integer id 2^53 + 1 and the float id
    2^53 it has one row too, that of the country Zed. *)
Theorem load_data_joined_views dir :
  let countries := safe_read dir "countries.csv" (Some countries_cols) in
  let minerals := safe_read dir "minerals.csv" (Some minerals_cols) in
  let production := safe_read dir "production_stats.csv" (Some production_cols) in
  let sites := safe_read dir "sites.csv" (Some sites_cols) in
  load_data dir = (countries, minerals, production_view dir, sites_view dir)
  /\ (df_empty production = false -> df_empty countries = false ->
      df_empty minerals = false ->
      joined_view production countries minerals (production_view dir))
  /\ (df_empty sites = false -> df_empty countries = false ->
      df_empty minerals = false ->
      joined_view sites countries minerals (sites_view dir))
  /\ (exists row,
        rows (production_view zed_dir) = [row]
        /\ row_get (columns (production_view zed_dir)) row "CountryName"
           = Some (CStr "Zed")
        /\ row_get (columns (production_view zed_dir)) row "MineralName"
           = Some (CStr "Cobalt")
        /\ row_get (columns (production_view zed_dir)) row "Production_tonnes"
           = Some (CInt 100))
  /\ (exists row,
        rows (production_view big_id_dir) = [row]
        /\ row_get (columns (production_view big_id_dir)) row "CountryName"
           = Some (CStr "Zed")).
Proof.
  intros countries minerals production sites.
  split; [reflexivity|]. split; [|split; [|split]].
  - apply join_or_keep_view.
  - apply join_or_keep_view.
  - eexists. split; [vm_compute; reflexivity|]. repeat split; reflexivity.
  - eexists. split; [vm_compute; reflexivity|]. reflexivity.
Qed.

(** C4 on the scenario of the specification: the production view is the
    join of the three tables. *)
Lemma load_data_joined_views_witness :
  joined_view zed_production zed_countries zed_minerals (production_view zed_dir).
Proof.
  destruct (load_data_joined_views zed_dir) as (_ & H & _).
  apply H; reflexivity.
Defined.

(** C4 as stated fails: a production record with the integer [CountryID]
    2^53 + 1 is joined with the country whose [CountryID] is the float
    2^53, the only country there is, although the two ids differ. *)
Lemma joined_view_pairs_different_ids :
  (exists row,
      rows (production_view big_id_dir) = [row]
      /\ row_get (columns (production_view big_id_dir)) row "CountryName"
         = Some (CStr "Zed")
      /\ row_get (columns (production_view big_id_dir)) row "Production_tonnes"
         = Some (CInt 100))
  /\ map (fun r => row_get production_cols r "CountryID")
         (rows (safe_read big_id_dir "production_stats.csv" (Some production_cols)))
     = [Some (CInt 9007199254740993)]
  /\ map (fun r => row_get countries_cols r "CountryID")
         (rows (safe_read big_id_dir "countries.csv" (Some countries_cols)))
     = [Some (CFloat (9007199254740992 # 1))]
  /\ ~ (inject_Z 9007199254740993 == 9007199254740992 # 1)%Q.
Proof.
  split; [|split; [|split]].
  - eexists. split; [vm_compute; reflexivity|]. split; reflexivity.
  - reflexivity.
  - reflexivity.
  - vm_compute. discriminate.
Qed.

(** Splits a row whose length is known into its cells. *)
Ltac explode_row r H :=
  repeat (let c := fresh "c" in destruct r as [|c r]; simpl in H; try discriminate H);
  clear H.

Lemma well_formed_row df r :
  well_formed df -> In r (rows df) -> length r = length (columns df).
Proof. unfold well_formed. rewrite List.Forall_forall. auto. Qed.

(** With the columns of the three tables known, follows a row of the join
    back to the rows it was built from. *)
Ltac trace_joined_row Wc Cc Wm Cm Wt Ct Hj Hrow :=
  unfold join in Hj;
  let mid := fresh "mid" in
  let E1 := fresh "E1" in
  destruct (merge _ _ "CountryID") as [mid|] eqn:E1; simpl in Hj; [|discriminate];
  let i1 := fresh "i" in let k1 := fresh "k" in
  let i2 := fresh "i" in let k2 := fresh "k" in
  let Hi1 := fresh "Hi" in let Hk1 := fresh "Hk" in
  let Hi2 := fresh "Hi" in let Hk2 := fresh "Hk" in
  let Cmid := fresh "Cmid" in let Rmid := fresh "Rmid" in
  let Cj := fresh "Cj" in let Rj := fresh "Rj" in
  destruct (merge_Ok _ _ _ _ E1) as (i1 & k1 & Hi1 & Hk1 & Cmid & Rmid);
  destruct (merge_Ok _ _ _ _ Hj) as (i2 & k2 & Hi2 & Hk2 & Cj & Rj);
  rewrite Cmid, Ct, Cc in Hi2; rewrite Ct in Hi1; rewrite Cc in Hk1;
  rewrite Cm in Hk2;
  vm_compute in Hi1, Hk1, Hk2, Hi2;
  injection Hi1 as <-; injection Hk1 as <-; injection Hk2 as <-;
  injection Hi2 as <-;
  let a := fresh "a" in let mr := fresh "mr" in
  let tr := fresh "tr" in let cr := fresh "cr" in
  let Ha := fresh "Ha" in let Hmr := fresh "Hmr" in
  let Htr := fresh "Htr" in let Hcr := fresh "Hcr" in
  let Km := fresh "Km" in let Kc := fresh "Kc" in
  rewrite Rj in Hrow; apply in_merge_rows in Hrow as (a & mr & Ha & Hmr & Km & ->);
  rewrite Rmid in Ha; apply in_merge_rows in Ha as (tr & cr & Htr & Hcr & Kc & ->);
  let Ltr := fresh "Ltr" in let Lcr := fresh "Lcr" in let Lmr := fresh "Lmr" in
  pose proof (well_formed_row _ _ Wt Htr) as Ltr; rewrite Ct in Ltr;
  pose proof (well_formed_row _ _ Wc Hcr) as Lcr; rewrite Cc in Lcr;
  pose proof (well_formed_row _ _ Wm Hmr) as Lmr; rewrite Cm in Lmr;
  exists tr, cr, mr; rewrite Cj, Cmid, Ct, Cc, Cm;
  split; [exact Htr|]; split; [exact Hcr|]; split; [exact Hmr|];
  explode_row tr Ltr; explode_row cr Lcr; explode_row mr Lmr;
  split; [eexists _, _; repeat split; try reflexivity; exact Kc|];
  split; [eexists _, _; repeat split; try reflexivity; exact Km|];
  split; [reflexivity|]; split; [reflexivity|];
  let name := fresh "name" in let Hn := fresh "Hn" in
  intros name Hn; simpl in Hn;
  repeat (destruct Hn as [<-|Hn]; [reflexivity|]); destruct Hn.

Lemma production_rows_drawn c m p j :
  well_formed c -> columns c = countries_cols ->
  well_formed m -> columns m = minerals_cols ->
  well_formed p -> columns p = production_cols ->
  join p c m = Ok j ->
  forall row, In row (rows j) -> drawn_from p c m j row.
Proof.
  intros Wc Cc Wm Cm Wp Cp Hj row Hrow.
  trace_joined_row Wc Cc Wm Cm Wp Cp Hj Hrow.
Qed.

Lemma sites_rows_drawn c m s j :
  well_formed c -> columns c = countries_cols ->
  well_formed m -> columns m = minerals_cols ->
  well_formed s -> columns s = sites_cols ->
  join s c m = Ok j ->
  forall row, In row (rows j) -> drawn_from s c m j row.
Proof.
  intros Wc Cc Wm Cm Ws Cs Hj row Hrow.
  trace_joined_row Wc Cc Wm Cm Ws Cs Hj Hrow.
Qed.

Lemma join_or_keep_performed t c m :
  join_performed t c m -> join t c m = Ok (join_or_keep t c m).
Proof.
  intros (Ht & Hc & Hm & j & Hj). unfold join_or_keep.
  now rewrite Ht, Hc, Hm, Hj.
Qed.

Lemma join_or_keep_not_performed t c m :
  ~ join_performed t c m -> join_or_keep t c m = t.
Proof.
  intros H. unfold join_or_keep.
  destruct (df_empty t) eqn:Ht; [reflexivity|].
  destruct (df_empty c) eqn:Hc; [reflexivity|].
  destruct (df_empty m) eqn:Hm; [reflexivity|]. simpl.
  destruct (join t c m) as [j|e] eqn:Hj; [|reflexivity].
  exfalso. apply H. unfold join_performed. rewrite Ht, Hc, Hm, Hj. eauto.
Qed.

(** C5, as the code has it: with the three tables in the documented
    columns, whenever the join is carried out (the tables are non-empty and
    neither merge raises) every row of the production view, and likewise
    of the sites view, is drawn from a source row, a country whose
    [CountryID] matches and a mineral whose [MineralID] matches, where two
    ids match when they are the same text, the same integer, the same
    float, both missing, or an integer and a float that are equal once the
    integer is converted to [float64]; its [CountryName] and [MineralName]
    are the names recorded for that country and that mineral, missing
    exactly when those are missing.  When the join is not carried out the
    view is the source table as read. *)
Theorem joined_rows_drawn_from_matches dir :
  let countries := safe_read dir "countries.csv" (Some countries_cols) in
  let minerals := safe_read dir "minerals.csv" (Some minerals_cols) in
  let production := safe_read dir "production_stats.csv" (Some production_cols) in
  let sites := safe_read dir "sites.csv" (Some sites_cols) in
  (well_formed countries -> columns countries = countries_cols ->
   well_formed minerals -> columns minerals = minerals_cols ->
   (well_formed production -> columns production = production_cols ->
    join_performed production countries minerals ->
    forall row, In row (rows (production_view dir)) ->
      drawn_from production countries minerals (production_view dir) row)
   /\ (well_formed sites -> columns sites = sites_cols ->
       join_performed sites countries minerals ->
       forall row, In row (rows (sites_view dir)) ->
         drawn_from sites countries minerals (sites_view dir) row))
  /\ (~ join_performed production countries minerals ->
      production_view dir = production)
  /\ (~ join_performed sites countries minerals -> sites_view dir = sites).
Proof.
  intros countries minerals production sites. split; [|split].
  - intros Wc Cc Wm Cm. split.
    + intros Wp Cp Hj. apply join_or_keep_performed in Hj.
      now apply production_rows_drawn.
    + intros Ws Cs Hj. apply join_or_keep_performed in Hj.
      now apply sites_rows_drawn.
  - apply join_or_keep_not_performed.
  - apply join_or_keep_not_performed.
Qed.

(** C5 on the scenario of the specification: the one row of the
    production view is drawn from matching records. *)
Lemma joined_rows_drawn_from_matches_witness :
  exists row,
    In row (rows (production_view zed_dir))
    /\ drawn_from zed_production zed_countries zed_minerals
         (production_view zed_dir) row.
Proof.
  destruct (joined_rows_drawn_from_matches zed_dir) as (H & _).
  destruct H as (Hp & _);
    [repeat constructor|reflexivity|repeat constructor|reflexivity|].
  eexists. split; [left; reflexivity|].
  apply Hp.
  - repeat constructor.
  - reflexivity.
  - repeat split; try reflexivity. eexists. vm_compute. reflexivity.
  - left. reflexivity.
Defined.

(** C5 as stated fails.  A country recorded without a name joins like any
    other, and the joined row has no [CountryName]; without
    [minerals.csv] the production view is the table as read, whose row has
    neither a [CountryName] nor a [MineralName] and matches no mineral; and
    a record with the integer [CountryID] 2^53 + 1 appears in the view,
    joined with the country of float id 2^53, although no country has its
    id. *)
Lemma joined_view_with_missing_names :
  (exists row,
      rows (production_view unnamed_country_dir) = [row]
      /\ row_get (columns (production_view unnamed_country_dir)) row "CountryName"
         = Some NaN)
  /\ (exists row,
        rows (production_view no_minerals_dir) = [row]
        /\ row_get (columns (production_view no_minerals_dir)) row "CountryName" = None
        /\ row_get (columns (production_view no_minerals_dir)) row "MineralName" = None
        /\ rows (snd (fst (fst (load_data no_minerals_dir)))) = [])
  /\ (exists row,
        rows (production_view big_id_dir) = [row]
        /\ row_get (columns (production_view big_id_dir)) row "CountryName"
           = Some (CStr "Zed")
        /\ map (fun r => row_get production_cols r "CountryID")
               (rows (safe_read big_id_dir "production_stats.csv"
                        (Some production_cols)))
           = [Some (CInt 9007199254740993)]
        /\ map (fun r => row_get countries_cols r "CountryID")
               (rows (safe_read big_id_dir "countries.csv" (Some countries_cols)))
           = [Some (CFloat (9007199254740992 # 1))]
        /\ ~ (inject_Z 9007199254740993 == 9007199254740992 # 1)%Q).
Proof.
  split; [|split]; eexists; (split; [vm_compute; reflexivity|]);
    repeat split; try reflexivity.
  vm_compute. discriminate.
Qed.

(** C3: for each source, a missing file yields the empty table with the
    expected columns, and nothing raises; but a file on which [read_csv]
    raises yields [pd.DataFrame()], an empty table with no columns at all,
    so the expected columns are lost on that path. *)
Theorem safe_read_degraded :
  (forall dir name c cs,
      safe_read (delete name dir) name (Some (c :: cs)) = DataFrame_columns (c :: cs))
  /\ (forall dir name cols e,
        safe_read (<[name := Raise e]> dir) name cols = DataFrame_new)
  /\ load_data ∅
     = (DataFrame_columns countries_cols, DataFrame_columns minerals_cols,
        DataFrame_columns production_cols, DataFrame_columns sites_cols)
  /\ (forall e,
        load_data (unreadable_dir e)
        = (DataFrame_new, DataFrame_new, DataFrame_new, DataFrame_new))
  /\ columns DataFrame_new = []
  /\ df_empty DataFrame_new = true
  /\ (forall cols, df_empty (DataFrame_columns cols) = true).
Proof.
  split; [|split; [|split; [|split; [|split; [|split]]]]].
  - intros dir name c cs. unfold safe_read. now rewrite lookup_delete_eq.
  - intros dir name cols e. unfold safe_read. now rewrite lookup_insert_eq.
  - reflexivity.
  - intros e. reflexivity.
  - reflexivity.
  - reflexivity.
  - intros cols. unfold df_empty. simpl. now destruct cols.
Qed.

(** ** The sites map *)

Lemma cell_eqb_refl c : cell_eqb c c = true.
Proof.
  destruct c; simpl; try reflexivity.
  - apply Qeq_bool_iff. reflexivity.
  - apply Qeq_bool_iff. reflexivity.
  - apply String.eqb_refl.
Qed.

Lemma cell_eqb_sym a b : cell_eqb a b = cell_eqb b a.
Proof.
  destruct a, b; simpl; try reflexivity;
    try (apply eq_true_iff_eq; rewrite !Qeq_bool_iff;
         split; intros H; symmetry; exact H).
  apply String.eqb_sym.
Qed.

Lemma cell_eqb_trans a b c :
  cell_eqb a b = true -> cell_eqb b c = true -> cell_eqb a c = true.
Proof.
  destruct a, b, c; simpl; try discriminate; try reflexivity;
    try (rewrite !Qeq_bool_iff; intros H1 H2; now rewrite H1).
  rewrite !String.eqb_eq. congruence.
Qed.

Lemma unique_from_not_seen l : forall seen a,
  In a (unique_from seen l) -> existsb (cell_eqb a) seen = false.
Proof.
  induction l as [|c l IH]; intros seen a; simpl; [tauto|].
  destruct (existsb (cell_eqb c) seen) eqn:E; [apply IH|].
  intros [<-|H]; [exact E|].
  apply IH in H. simpl in H. now apply orb_false_iff in H.
Qed.

Lemma unique_from_distinct l : forall seen i j a b,
  unique_from seen l !! i = Some a ->
  unique_from seen l !! j = Some b ->
  (j < i)%nat -> cell_eqb a b = false.
Proof.
  induction l as [|c l IH]; intros seen i j a b; simpl; [discriminate|].
  destruct (existsb (cell_eqb c) seen); [apply IH|].
  destruct i as [|i]; [lia|]. destruct j as [|j]; simpl.
  - intros Ha [= <-] _.
    assert (Hin : In a (unique_from (c :: seen) l)).
    { apply list_elem_of_In. eapply list_elem_of_lookup_2. exact Ha. }
    apply unique_from_not_seen in Hin. simpl in Hin.
    now apply orb_false_iff in Hin.
  - intros Ha Hb Hlt. eapply IH; eauto. lia.
Qed.

Lemma cmap_get_imap l : forall (g : nat -> string) i name key dflt,
  l !! i = Some name ->
  cell_eqb name key = true ->
  (forall j other, (j < i)%nat -> l !! j = Some other -> cell_eqb other key = false) ->
  cmap_get (imap (fun i m => (m, g i)) l) key dflt = g i.
Proof.
  induction l as [|c l IH]; intros g i name key dflt Hi Hk Hbefore; [discriminate|].
  destruct i as [|i]; simpl in *.
  - injection Hi as ->. now rewrite Hk.
  - rewrite (Hbefore 0%nat c) by (reflexivity || lia).
    apply (IH (fun n => g (S n)) i name); [exact Hi|exact Hk|].
    intros j other Hj Ho. apply (Hbefore (S j)); [lia|exact Ho].
Qed.

Lemma palette_lookup i :
  palette !! (i mod length palette)%nat
  = Some (default "" (palette !! (i mod length palette)%nat)).
Proof.
  destruct (palette !! (i mod length palette)%nat) eqn:E; [reflexivity|].
  apply lookup_ge_None in E.
  pose proof (Nat.mod_upper_bound i (length palette)) as H.
  simpl in *. lia.
Qed.

(** The colour [make_cmap] gives a name is the palette entry at the name's
    position among the distinct names. *)
Lemma make_cmap_color l i name key dflt :
  unique l !! i = Some name ->
  cell_eqb name key = true ->
  palette !! (i mod length palette)%nat
  = Some (cmap_get (make_cmap (unique l)) key dflt).
Proof.
  intros Hi Hk. unfold make_cmap.
  rewrite (cmap_get_imap _ _ i name key dflt Hi Hk); [apply palette_lookup|].
  intros j other Hj Ho.
  destruct (cell_eqb other key) eqn:E; [|reflexivity].
  assert (Hd : cell_eqb name other = false)
    by (eapply (unique_from_distinct l [] i j); eauto).
  rewrite cell_eqb_sym in E.
  now rewrite (cell_eqb_trans _ _ _ Hk E) in Hd.
Qed.





Section BuildMapFacts.

Variable str_to_float : string -> option PyFloat.
Variable str_to_int : string -> option Z.
Variable to_numeric_str : string -> PyFloat.

Abbreviation build := (build_map str_to_float str_to_int to_numeric_str).
Abbreviation markers_of := (add_markers str_to_float str_to_int).

Lemma add_markers_color cmap cols i0 rs : forall ms,
  col_index "MineralName" cols = Some i0 ->
  markers_of cmap cols rs = Ok ms ->
  Forall (fun mk => marker_color mk
                    = cmap_get cmap (popup_mineral (marker_popup mk)) "#ffffff") ms.
Proof.
  induction rs as [|r rs IH]; intros ms Hcol; simpl.
  - intros [= <-]. constructor.
  - destruct (row_coords str_to_float cols r) as [loc|]; [|now apply IH].
    destruct (py_int str_to_int _) as [tonnes|]; simpl; [|discriminate].
    destruct (validate_location loc) as [loc'|]; simpl; [|discriminate].
    destruct (markers_of cmap cols rs) as [ms'|]; simpl; [|discriminate].
    intros [= <-]. constructor; [|now apply IH].
    simpl. unfold row_get. rewrite Hcol. reflexivity.
Qed.


(** C6: on the one-row table of a cobalt site, [build_map] with the
    default filter centres the map on the site and marks it.  With a
    filter that no row matches the means are NaN, [x or 0] keeps the NaN,
    [folium.Map] refuses it and [build_map] raises [ValueError]: the
    centre does not default to (0, 0).  The same happens on a table whose
    only row has no coordinates, and a row without coordinates beside a
    charted one is not left out of the markers: its marker is refused and
    [build_map] raises.  On an empty table the result is [None]. *)
Theorem build_map_center :
  build cobalt_site (Some "All")
  = Ok (Some {| map_location := (FNum (3 # 2), FNum (5 # 2));
                zoom_start := 3;
                markers :=
                  [ {| marker_location := (FNum (3 # 2), FNum (5 # 2));
                       marker_color := "#636EFA";
                       marker_popup :=
                         {| popup_site := CStr "Mine"; popup_mineral := CStr "Cobalt";
                            popup_country := CStr "Zed"; popup_production := 100 |} |} ] |})
  /\ build cobalt_site (Some "Gold") = Raise "ValueError"
  /\ build uncharted_site None = Raise "ValueError"
  /\ build half_charted_sites None = Raise "ValueError"
  /\ build (DataFrame_columns site_view_cols) (Some "All") = Ok None
  /\ or_zero FNaN = FNaN
  /\ or_zero (FNum 0) = FNum 0
  /\ validate_location (FNaN, FNaN) = Raise "ValueError".
Proof. repeat split; vm_compute; reflexivity. Qed.

End BuildMapFacts.


(** ** More on the user store *)

Lemma in_map_user_id (us : list User) n :
  In n (map user_id us) -> exists u, In u us /\ user_id u = n.
Proof. intros H. apply in_map_iff in H as (u & <- & Hu). eauto. Qed.

Lemma ids_fresh_append d e :
  ids_fresh d -> user_id e = next_id d ->
  ids_fresh {| users := users d ++ [e]; next_id := next_id d + 1 |}.
Proof.
  intros [Hlt Hnd] He. split; simpl.
  - apply Forall_app. split.
    + eapply Forall_impl; [exact Hlt|]. simpl. intros; lia.
    + repeat constructor. lia.
  - rewrite map_app. simpl. apply NoDup_app. split; [exact Hnd|]. split.
    + intros n Hn Hn'. apply list_elem_of_In in Hn, Hn'.
      apply in_map_user_id in Hn as (u & Hu & <-).
      destruct Hn' as [Hn'|[]]. rewrite List.Forall_forall in Hlt.
      specialize (Hlt u Hu). lia.
    + apply NoDup_singleton.
Qed.

Lemma map_filter_sublist {B} (f : User -> B) (P : User -> Prop)
    `{forall u, Decision (P u)} (us : list User) :
  sublist (map f (filter P us)) (map f us).
Proof.
  induction us as [|u us IH]; simpl; [constructor|].
  rewrite filter_cons. destruct (decide (P u)); simpl.
  - now apply sublist_skip.
  - now apply sublist_cons.
Qed.

Lemma ids_fresh_filter d (P : User -> Prop) `{forall u, Decision (P u)} :
  ids_fresh d ->
  ids_fresh {| users := filter P (users d); next_id := next_id d |}.
Proof.
  intros [Hlt Hnd]. split; simpl.
  - apply List.Forall_forall. intros u Hu.
    apply list_elem_of_In, list_elem_of_filter in Hu as [_ Hu].
    rewrite List.Forall_forall in Hlt. apply Hlt. now apply list_elem_of_In.
  - eapply sublist_NoDup; [exact Hnd|apply (map_filter_sublist user_id P)].
Qed.

Section StripFront.

Variable t2 : ascii -> ascii -> bool.
Variable t3 : ascii -> ascii -> ascii -> bool.

Lemma strip_front_step l :
  strip_front t2 t3 l
  = match front_space t2 t3 l with
    | Some r => strip_front t2 t3 r
    | None => l
    end.
Proof.
  destruct l as [|c1 [|c2 [|c3 r3]]]; simpl; try reflexivity.
  - now destruct (is_space c1).
  - destruct (is_space c1); [reflexivity|]. now destruct (t2 c1 c2).
  - destruct (is_space c1); [reflexivity|].
    destruct (t2 c1 c2); [reflexivity|]. now destruct (t3 c1 c2 c3).
Qed.

Lemma front_space_shorter l r :
  front_space t2 t3 l = Some r ->
  (length r < length l)%nat /\ exists pre, l = pre ++ r.
Proof.
  destruct l as [|c1 r1]; simpl; [discriminate|].
  destruct (is_space c1).
  { intros [= <-]. split; [lia|]. now exists [c1]. }
  destruct r1 as [|c2 r2]; [discriminate|].
  destruct (t2 c1 c2).
  { intros [= <-]. split; [simpl; lia|]. now exists [c1; c2]. }
  destruct r2 as [|c3 r3]; [discriminate|].
  destruct (t3 c1 c2 c3); [|discriminate].
  intros [= <-]. split; [simpl; lia|]. now exists [c1; c2; c3].
Qed.

Lemma front_space_app p r x :
  front_space t2 t3 p = Some r -> front_space t2 t3 (p ++ x) = Some (r ++ x).
Proof.
  destruct p as [|c1 r1]; simpl; [discriminate|].
  destruct (is_space c1); [now intros [= <-]|].
  destruct r1 as [|c2 r2]; [discriminate|]. simpl.
  destruct (t2 c1 c2); [now intros [= <-]|].
  destruct r2 as [|c3 r3]; [discriminate|]. simpl.
  destruct (t3 c1 c2 c3); [now intros [= <-]|discriminate].
Qed.

Lemma strip_front_spec n : forall l,
  (length l <= n)%nat ->
  front_space t2 t3 (strip_front t2 t3 l) = None
  /\ exists pre, l = pre ++ strip_front t2 t3 l.
Proof.
  induction n as [|n IH]; intros l Hl.
  - destruct l; [|simpl in Hl; lia]. split; [reflexivity|now exists []].
  - rewrite strip_front_step.
    destruct (front_space t2 t3 l) as [r|] eqn:E.
    + destruct (front_space_shorter _ _ E) as (Hlt & pre & ->).
      destruct (IH r) as (Hnone & pre' & Hpre'); [lia|].
      split; [exact Hnone|]. exists (pre ++ pre').
      rewrite <- app_assoc. now rewrite <- Hpre'.
    + split; [exact E|now exists []].
Qed.

Lemma strip_front_fixed l :
  front_space t2 t3 l = None -> strip_front t2 t3 l = l.
Proof. intros H. now rewrite strip_front_step, H. Qed.

End StripFront.

Lemma rstrip_lstrip_fixed l :
  lstrip_bytes (rstrip_bytes (lstrip_bytes l)) = rstrip_bytes (lstrip_bytes l).
Proof.
  set (t := lstrip_bytes l).
  destruct (strip_front_spec is_space2 is_space3 _ l (le_n _)) as (Hnone & _).
  fold (lstrip_bytes l) in Hnone. fold t in Hnone.
  destruct (strip_front_spec (fun c1 c2 => is_space2 c2 c1)
              (fun c1 c2 c3 => is_space3 c3 c2 c1) _ (rev t) (le_n _))
    as (_ & pre & Hpre).
  assert (Ht : t = rstrip_bytes t ++ rev pre).
  { unfold rstrip_bytes. rewrite <- rev_app_distr, <- Hpre.
    now rewrite rev_involutive. }
  apply strip_front_fixed.
  destruct (front_space is_space2 is_space3 (rstrip_bytes t)) as [r|] eqn:E;
    [|reflexivity].
  apply (front_space_app _ _ _ _ (rev pre)) in E. rewrite <- Ht in E. congruence.
Qed.

Lemma rstrip_bytes_idempotent l : rstrip_bytes (rstrip_bytes l) = rstrip_bytes l.
Proof.
  unfold rstrip_bytes. rewrite rev_involutive. f_equal.
  apply strip_front_fixed.
  apply (strip_front_spec _ _ _ (rev l) (le_n _)).
Qed.

Lemma strip_idempotent s : strip (strip s) = strip s.
Proof.
  unfold strip. rewrite list_ascii_of_string_of_list_ascii.
  now rewrite rstrip_lstrip_fixed, rstrip_bytes_idempotent.
Qed.

Section UserStoreInvariants.

Context {Salt : Type}.
Variable generate_password_hash : Salt -> string -> string.
Variable check_password_hash : string -> string -> bool.
Hypothesis check_generate :
  forall salt pw, check_password_hash (generate_password_hash salt pw) pw = true.

Abbreviation load := (load_users generate_password_hash).
Abbreviation auth := (authenticate generate_password_hash check_password_hash).
Abbreviation new_entry := (created_entry generate_password_hash).

Lemma create_user_eq env file salt now uname password urole uemail :
  create_user generate_password_hash env file salt now uname password urole uemail
  = Some {| users := users (load env file)
                     ++ [new_entry (load env file) salt now uname password urole uemail];
            next_id := next_id (load env file) + 1 |}.
Proof. reflexivity. Qed.

Lemma register_cases environ env file salt now u uemail urole pw conf admin_code :
  let r := register generate_password_hash environ env file salt now
             u uemail urole pw conf admin_code in
  (fst r <> Registered /\ (snd r = file \/ snd r = Some (load env file)))
  \/ (fst r = Registered
      /\ pw = conf /\ u <> "" /\ pw <> ""
      /\ (urole = "Administrator" -> admin_code = ADMIN_SECRET environ)
      /\ Forall (fun x => username x <> u) (users (load env file))
      /\ snd r = Some {| users := users (load env file)
                                  ++ [new_entry (load env file) salt now u pw urole
                                        (strip uemail)];
                         next_id := next_id (load env file) + 1 |}).
Proof.
  intros r. unfold r, register.
  destruct (String.eqb_spec pw conf) as [Hpc|Hpc]; simpl;
    [|left; split; [discriminate|now left]].
  destruct (String.eqb_spec u "") as [Hu|Hu]; simpl;
    [left; split; [discriminate|now left]|].
  destruct (String.eqb_spec pw "") as [Hp|Hp]; simpl;
    [left; split; [discriminate|now left]|].
  destruct ((urole =? "Administrator")%string
            && negb (admin_code =? ADMIN_SECRET environ)%string) eqn:Hcode;
    [left; split; [discriminate|now left]|].
  destruct (existsb _ _) eqn:Hex; [left; split; [discriminate|now right]|].
  right. split; [reflexivity|]. repeat split; try assumption.
  - intros ->. simpl in Hcode. apply negb_false_iff in Hcode.
    now apply String.eqb_eq.
  - apply List.Forall_forall. intros x Hx Hux.
    assert (existsb (fun x => (username x =? u)%string) (users (load env file)) = true).
    { apply existsb_exists. exists x. split; [exact Hx|now apply String.eqb_eq]. }
    congruence.
Qed.

(** X1: the seed store has distinct ids, all below [next_id]; and
    [create_user], the Register button and "Delete User" keep it so. *)
Theorem store_ids_stay_fresh env file :
  ids_fresh (load env None)
  /\ (ids_fresh (load env file) ->
      (forall salt now uname password urole uemail,
          ids_fresh (load env (create_user generate_password_hash env file
                                 salt now uname password urole uemail)))
      /\ (forall environ salt now u uemail urole pw conf admin_code,
            ids_fresh (load env (snd (register generate_password_hash environ env file
                                        salt now u uemail urole pw conf admin_code))))
      /\ (forall uid,
            ids_fresh (load env (admin_delete_user generate_password_hash env file uid)))).
Proof.
  split.
  - split; simpl; [repeat constructor; lia|].
    apply NoDup_singleton.
  - intros Hinv. split; [|split].
    + intros. rewrite create_user_eq. simpl. now apply ids_fresh_append.
    + intros environ salt now u uemail urole pw conf admin_code.
      destruct (register_cases environ env file salt now u uemail urole pw conf admin_code)
        as [(_ & [-> | ->]) | (_ & _ & _ & _ & _ & _ & ->)]; simpl; try assumption.
      now apply ids_fresh_append.
    + intros uid. unfold admin_delete_user, save_users.
      destruct (users (load env file)) eqn:E; simpl; [exact Hinv|].
      rewrite <- E. now apply ids_fresh_filter.
Qed.

(** X2: the seed store has distinct usernames, and the Register button and
    "Delete User" keep usernames distinct. *)
Theorem usernames_stay_unique env file :
  usernames_unique (load env None)
  /\ (usernames_unique (load env file) ->
      (forall environ salt now u uemail urole pw conf admin_code,
          usernames_unique
            (load env (snd (register generate_password_hash environ env file
                              salt now u uemail urole pw conf admin_code))))
      /\ (forall uid,
            usernames_unique
              (load env (admin_delete_user generate_password_hash env file uid)))).
Proof.
  unfold usernames_unique. split; [apply NoDup_singleton|].
  intros Hinv. split.
  - intros environ salt now u uemail urole pw conf admin_code.
    destruct (register_cases environ env file salt now u uemail urole pw conf admin_code)
      as [(_ & [-> | ->]) | (_ & _ & _ & _ & _ & Hfree & ->)]; simpl; try assumption.
    rewrite map_app. simpl. apply NoDup_app. split; [exact Hinv|].
    split; [|apply NoDup_singleton].
    intros n Hn Hn'. apply list_elem_of_In in Hn, Hn'.
    apply in_map_iff in Hn as (x & <- & Hx). destruct Hn' as [Hn'|[]].
    rewrite List.Forall_forall in Hfree. now apply (Hfree x Hx).
  - intros uid. unfold admin_delete_user, save_users.
    destruct (users (load env file)) eqn:E; simpl; [now rewrite E|].
    eapply sublist_NoDup; [exact Hinv|].
    apply (map_filter_sublist username (fun u => user_id u <> uid)).
Qed.

(** X3: the Register button registers exactly when the two passwords are
    equal, username and password are non-empty, the administrator code is
    right if the role is Administrator, and no stored username equals the
    new one; it then appends one entry with the next id, the given role and
    a hash of the password, and increments [next_id].  It reports a
    duplicate exactly when only the last condition fails, and whenever it
    does not register the stored accounts are unchanged. *)
Theorem register_outcome environ env file salt now u uemail urole pw conf admin_code :
  let r := register generate_password_hash environ env file salt now
             u uemail urole pw conf admin_code in
  let data := load env file in
  let fields_ok :=
    pw = conf /\ u <> "" /\ pw <> ""
    /\ (urole = "Administrator" -> admin_code = ADMIN_SECRET environ) in
  (fst r = Registered <->
     fields_ok /\ Forall (fun x => username x <> u) (users data))
  /\ (fst r = DuplicateUsernameError <->
       fields_ok /\ Exists (fun x => username x = u) (users data))
  /\ (fst r = Registered ->
       snd r = Some {| users := users data
                                ++ [new_entry data salt now u pw urole (strip uemail)];
                       next_id := next_id data + 1 |})
  /\ (fst r <> Registered -> load env (snd r) = data).
Proof.
  intros r data fields_ok. unfold fields_ok, r, register. fold data.
  destruct (String.eqb_spec pw conf) as [Hpc|Hpc]; simpl;
    [|repeat split; try discriminate; tauto].
  destruct (String.eqb_spec u "") as [Hu|Hu]; simpl;
    [repeat split; try discriminate; tauto|].
  destruct (String.eqb_spec pw "") as [Hp|Hp]; simpl;
    [repeat split; try discriminate; tauto|].
  destruct (String.eqb_spec urole "Administrator") as [Hr|Hr]; simpl.
  - destruct (String.eqb_spec admin_code (ADMIN_SECRET environ)) as [Hc|Hc]; simpl;
      [|repeat split; try discriminate; tauto].
    destruct (existsb _ (users data)) eqn:Hex; simpl.
    + apply existsb_exists in Hex as (x & Hx & Hxu). apply String.eqb_eq in Hxu.
      repeat split; try discriminate; try tauto.
      * intros (_ & Hall). rewrite List.Forall_forall in Hall.
        now destruct (Hall x Hx).
      * apply List.Exists_exists. eauto.
    + assert (Hall : Forall (fun x => username x <> u) (users data)).
      { apply List.Forall_forall. intros x Hx Hxu.
        assert (existsb (fun x => (username x =? u)%string) (users data) = true)
          by (apply existsb_exists; exists x; split;
              [exact Hx|now apply String.eqb_eq]).
        congruence. }
      repeat split; try discriminate; try tauto.
      intros (_ & Hex'). apply List.Exists_exists in Hex' as (x & Hx & Hxu).
      rewrite List.Forall_forall in Hall. now destruct (Hall x Hx).
  - destruct (existsb _ (users data)) eqn:Hex; simpl.
    + apply existsb_exists in Hex as (x & Hx & Hxu). apply String.eqb_eq in Hxu.
      repeat split; try discriminate; try tauto.
      * intros (_ & Hall). rewrite List.Forall_forall in Hall.
        now destruct (Hall x Hx).
      * apply List.Exists_exists. eauto.
    + assert (Hall : Forall (fun x => username x <> u) (users data)).
      { apply List.Forall_forall. intros x Hx Hxu.
        assert (existsb (fun x => (username x =? u)%string) (users data) = true)
          by (apply existsb_exists; exists x; split;
              [exact Hx|now apply String.eqb_eq]).
        congruence. }
      repeat split; try discriminate; try tauto.
      intros (_ & Hex'). apply List.Exists_exists in Hex' as (x & Hx & Hxu).
      rewrite List.Forall_forall in Hall. now destruct (Hall x Hx).
Qed.

(** X4: unless the administrator code is the secret, the Register button
    leaves the stored Administrator accounts exactly as they were, whatever
    the role asked for. *)
Theorem register_admins_need_secret environ env file salt now
    u uemail urole pw conf admin_code :
  admin_code <> ADMIN_SECRET environ ->
  List.filter is_admin
    (users (load env (snd (register generate_password_hash environ env file salt now
                             u uemail urole pw conf admin_code))))
  = List.filter is_admin (users (load env file)).
Proof.
  intros Hcode.
  destruct (register_cases environ env file salt now u uemail urole pw conf admin_code)
    as [(_ & [-> | ->]) | (_ & _ & _ & _ & Hadm & _ & ->)]; simpl; try reflexivity.
  rewrite List.filter_app. simpl. unfold is_admin at 2. simpl.
  destruct (String.eqb_spec urole "Administrator") as [Hr|Hr];
    [now destruct Hcode; apply Hadm|].
  apply app_nil_r.
Qed.

Lemma authenticate_loop_filter (P : User -> Prop) `{forall u, Decision (P u)}
    us login_id pw u :
  authenticate_loop check_password_hash us login_id pw = Some u -> P u ->
  authenticate_loop check_password_hash (filter P us) login_id pw = Some u.
Proof.
  intros Hu HP. induction us as [|x us IH]; simpl in *; [discriminate|].
  rewrite filter_cons.
  destruct (names login_id x && check_password_hash (password_hash x) pw) eqn:Hx.
  - apply andb_true_iff in Hx as [Hn Hc]. rewrite Hn, Hc in Hu.
    injection Hu as ->. destruct (decide (P u)); [|contradiction].
    simpl. now rewrite Hn, Hc.
  - assert (Hrest : authenticate_loop check_password_hash us login_id pw = Some u).
    { destruct (names login_id x); [|exact Hu]. simpl in Hx. now rewrite Hx in Hu. }
    destruct (decide (P x)); [|now apply IH]. simpl.
    destruct (names login_id x); [|now apply IH]. simpl in Hx. rewrite Hx.
    now apply IH.
Qed.

(** X5: ids are not reused.  On a store with fresh ids, an account created
    after "Delete User" gets the [next_id] the store had before the
    deletion, which differs from every id that store held, the deleted one
    included. *)
Theorem deleted_id_not_reused env file uid salt now uname password urole uemail :
  ids_fresh (load env file) ->
  let f1 := admin_delete_user generate_password_hash env file uid in
  let e := new_entry (load env f1) salt now uname password urole uemail in
  create_user generate_password_hash env f1 salt now uname password urole uemail
  = Some {| users := users (load env f1) ++ [e];
            next_id := next_id (load env file) + 1 |}
  /\ user_id e = next_id (load env file)
  /\ Forall (fun x => user_id x <> user_id e) (users (load env file)).
Proof.
  intros [Hlt _] f1 e.
  assert (Hn : next_id (load env f1) = next_id (load env file)).
  { unfold f1, admin_delete_user, save_users.
    destruct (users (load env file)); reflexivity. }
  split; [rewrite create_user_eq; now rewrite Hn|].
  split; [exact Hn|].
  eapply Forall_impl; [exact Hlt|]. simpl. intros x Hx. unfold e. simpl.
  rewrite Hn. lia.
Qed.

(** X6: after "Delete User" on [uid], [authenticate] never returns an
    account with that id, and whoever it returned before, if not deleted,
    is still returned for the same identifier and password. *)
Theorem authenticate_after_delete env file uid login_id pw :
  let f1 := admin_delete_user generate_password_hash env file uid in
  (forall u, auth env f1 login_id pw = Some u ->
             user_id u <> uid /\ In u (users (load env file)))
  /\ (forall u, auth env file login_id pw = Some u -> user_id u <> uid ->
                auth env f1 login_id pw = Some u).
Proof.
  intros f1. unfold f1, authenticate, admin_delete_user, save_users.
  destruct (users (load env file)) as [|x us] eqn:E; simpl load_users.
  - rewrite E. split; [discriminate|auto].
  - simpl users. split.
    + intros u Hu. apply authenticate_loop_Some in Hu as (Hin & _).
      apply list_elem_of_In, list_elem_of_filter in Hin as [Hne Hin].
      split; [exact Hne|now apply list_elem_of_In].
    + intros u Hu Hne.
      now apply (authenticate_loop_filter (fun u => user_id u <> uid)).
Qed.

(** X7: registering and then logging in works.  When the Register button
    registers a username that [strip] leaves unchanged and that no stored
    account has as its email, logging in with that username and password
    opens a session with that username and the role registered. *)
Theorem register_then_login environ env file salt now u uemail urole pw conf admin_code s :
  let r := register generate_password_hash environ env file salt now
             u uemail urole pw conf admin_code in
  fst r = Registered ->
  strip u = u ->
  Forall (fun x => email x <> Some u) (users (load env file)) ->
  login generate_password_hash check_password_hash env (snd r) s u pw
  = (LoggedIn, {| logged_in := true; session_username := u; session_role := urole |}).
Proof.
  intros r Hreg Hstrip Hmail. unfold login. rewrite Hstrip.
  destruct (register_cases environ env file salt now u uemail urole pw conf admin_code)
    as [(Hno & _) | (_ & _ & _ & _ & _ & Hfree & Hsnd)]; [contradiction|].
  fold r in Hsnd. rewrite Hsnd. unfold authenticate. simpl load_users. simpl users.
  rewrite authenticate_loop_app.
  assert (Hnone : authenticate_loop check_password_hash
                    (users (load env file)) u pw = None).
  { apply authenticate_loop_None. apply List.Forall_forall. intros x Hx.
    rewrite List.Forall_forall in Hfree, Hmail.
    destruct (names u x) eqn:Hn; [|reflexivity].
    apply names_spec in Hn as [Hn|Hn].
    - now destruct (Hfree x Hx).
    - now destruct (Hmail x Hx). }
  rewrite Hnone. simpl. unfold names. simpl.
  now rewrite String.eqb_refl, check_generate.
Qed.

(** X8: the login form strips the identifier, so an account whose
    username, and whose email if it has one, starts or ends with
    whitespace is named by no identifier typed into the form, and a
    successful login is always into some other account. *)
Theorem padded_account_never_logs_in env file s login_id pw u :
  padded (username u) ->
  (forall e, email u = Some e -> padded e) ->
  names (strip login_id) u = false
  /\ (forall s',
        login generate_password_hash check_password_hash env file s login_id pw
        = (LoggedIn, s') ->
        exists v, In v (users (load env file)) /\ v <> u
                  /\ s' = {| logged_in := true; session_username := username v;
                             session_role := role v |}).
Proof.
  intros Hu He.
  assert (Hn : names (strip login_id) u = false).
  { destruct (names (strip login_id) u) eqn:Hn; [|reflexivity].
    apply names_spec in Hn as [Hn|Hn].
    - destruct Hu. unfold padded. rewrite <- Hn. apply strip_idempotent.
    - destruct (He _ Hn). apply strip_idempotent. }
  split; [exact Hn|]. intros s'. unfold login.
  destruct (authenticate _ _ env file (strip login_id) pw) as [v|] eqn:Hv;
    [|discriminate].
  intros [= <-]. apply authenticate_loop_Some in Hv as (Hin & Hnv & _).
  exists v. split; [exact Hin|]. split; [|reflexivity]. congruence.
Qed.

(** X9: on a fresh installation (no user file) the default credentials
    work: logging in as [admin] with [password] opens an Administrator
    session; and no identifier other than [admin] and
    [admin@minerals.local] logs in, whatever the password. *)
Theorem fresh_install_login env s :
  login generate_password_hash check_password_hash env None s "admin" "password"
  = (LoggedIn, {| logged_in := true; session_username := "admin";
                  session_role := "Administrator" |})
  /\ (forall login_id pw,
        strip login_id <> "admin" -> strip login_id <> "admin@minerals.local" ->
        login generate_password_hash check_password_hash env None s login_id pw
        = (InvalidCredentials, s)).
Proof.
  split.
  - unfold login, authenticate. simpl. now rewrite check_generate.
  - intros login_id pw H1 H2. unfold login, authenticate. simpl.
    unfold names. simpl.
    apply String.eqb_neq in H1, H2. now rewrite H1, H2.
Qed.

End UserStoreInvariants.

(** Closes [NoDup] goals on explicit lists of numbers or strings. *)
Ltac nodup_explicit :=
  repeat (apply NoDup_cons_2;
          [rewrite list_elem_of_In; simpl; intuition (try lia; try discriminate)|]);
  apply NoDup_nil_2.

Lemma store_with_bob_ids_fresh : ids_fresh (load_users plain_hash env0 (Some store_with_bob)).
Proof.
  split; simpl; [|nodup_explicit].
  repeat (apply List.Forall_cons; [simpl; lia|]). apply List.Forall_nil.
Qed.

(** X1 on the store holding the seed account and [bob], for the deletion
    of id 2. *)
Lemma store_ids_stay_fresh_witness :
  ids_fresh (load_users plain_hash env0
               (admin_delete_user plain_hash env0 (Some store_with_bob) 2)).
Proof.
  destruct (store_ids_stay_fresh plain_hash env0 (Some store_with_bob)) as (_ & H).
  destruct (H store_with_bob_ids_fresh) as (_ & _ & Hdel). apply Hdel.
Defined.

(** X2 on the same store, for the registration of [dana]. *)
Lemma usernames_stay_unique_witness :
  usernames_unique
    (load_users plain_hash env0
       (snd (register plain_hash ∅ env0 (Some store_with_bob) 7%nat
               "2024-02-01T00:00:00" "dana" "" "Investor" "pw" "pw" ""))).
Proof.
  destruct (usernames_stay_unique plain_hash env0 (Some store_with_bob)) as (_ & H).
  destruct H as (Hreg & _); [unfold usernames_unique; simpl; nodup_explicit|].
  apply Hreg.
Defined.

(** X3 on the same store: [dana] registers, and the file gains her entry
    with id 3. *)
Lemma register_outcome_witness :
  fst (register plain_hash ∅ env0 (Some store_with_bob) 7%nat
         "2024-02-01T00:00:00" "dana" "" "Investor" "pw" "pw" "") = Registered
  /\ exists d, snd (register plain_hash ∅ env0 (Some store_with_bob) 7%nat
                     "2024-02-01T00:00:00" "dana" "" "Investor" "pw" "pw" "") = Some d
               /\ next_id d = 4.
Proof.
  destruct (register_outcome plain_hash ∅ env0 (Some store_with_bob) 7%nat
              "2024-02-01T00:00:00" "dana" "" "Investor" "pw" "pw" "")
    as (Hiff & _ & Hsnd & _).
  assert (Hreg : fst (register plain_hash ∅ env0 (Some store_with_bob) 7%nat
                        "2024-02-01T00:00:00" "dana" "" "Investor" "pw" "pw" "")
                 = Registered).
  { apply Hiff. repeat split; try discriminate.
    simpl. repeat constructor; discriminate. }
  split; [exact Hreg|]. eexists. split; [exact (Hsnd Hreg)|reflexivity].
Defined.

(** X4 on the same store: asking for the Administrator role with a wrong
    code leaves the seed account the only administrator. *)
Lemma register_admins_need_secret_witness :
  "wrong" <> ADMIN_SECRET ∅
  /\ List.filter is_admin
       (users (load_users plain_hash env0
                 (snd (register plain_hash ∅ env0 (Some store_with_bob) 7%nat
                         "2024-02-01T00:00:00" "dana" "" "Administrator"
                         "pw" "pw" "wrong"))))
     = users (seed_store plain_hash env0).
Proof.
  assert (H : "wrong" <> ADMIN_SECRET ∅) by (vm_compute; discriminate).
  split; [exact H|].
  rewrite (register_admins_need_secret plain_hash ∅ env0 (Some store_with_bob) 7%nat
             "2024-02-01T00:00:00" "dana" "" "Administrator" "pw" "pw" "wrong" H).
  reflexivity.
Defined.

(** X5 on the same store: after deleting [bob] (id 2) a new account gets
    id 3. *)
Lemma deleted_id_not_reused_witness :
  exists d,
    create_user plain_hash env0
      (admin_delete_user plain_hash env0 (Some store_with_bob) 2)
      7%nat "2024-02-01T00:00:00" "dana" "pw" "Investor" "" = Some d
    /\ map user_id (users d) = [1; 3].
Proof.
  destruct (deleted_id_not_reused plain_hash env0 (Some store_with_bob) 2 7%nat
              "2024-02-01T00:00:00" "dana" "pw" "Investor" ""
              store_with_bob_ids_fresh) as (H & _).
  eexists. split; [exact H|reflexivity].
Defined.

(** X6 on the store with two accounts named [alice]: deleting the first
    (id 2) leaves the second reachable. *)
Lemma authenticate_after_delete_witness :
  authenticate plain_hash plain_check env0
    (admin_delete_user plain_hash env0 (Some store_two_alices) 2) "alice" "pw2"
  = Some alice2.
Proof.
  destruct (authenticate_after_delete plain_hash plain_check env0
              (Some store_two_alices) 2 "alice" "pw2") as (_ & H).
  apply H; [reflexivity|discriminate].
Defined.

(** X7 on the store with [bob]: [dana] registers and logs in. *)
Lemma register_then_login_witness :
  login plain_hash plain_check env0
    (snd (register plain_hash ∅ env0 (Some store_with_bob) 7%nat
            "2024-02-01T00:00:00" "dana" "" "Investor" "pw" "pw" ""))
    fresh_session "dana" "pw"
  = (LoggedIn, {| logged_in := true; session_username := "dana";
                  session_role := "Investor" |}).
Proof.
  apply (register_then_login plain_hash plain_check plain_check_generate).
  - reflexivity.
  - reflexivity.
  - simpl. repeat constructor; discriminate.
Defined.

(** X8: an account registered as [ bob], with a leading blank and no
    email given, is named by no identifier typed into the login form. *)
Lemma padded_account_never_logs_in_witness :
  fst (register plain_hash ∅ env0 None 7%nat "2024-02-01T00:00:00"
         " bob" "" "Investor" "pw" "pw" "") = Registered
  /\ names (strip " bob")
       (created_entry plain_hash (seed_store plain_hash env0) 7%nat
          "2024-02-01T00:00:00" " bob" "pw" "Investor" "") = false.
Proof.
  split; [reflexivity|].
  apply (padded_account_never_logs_in plain_hash plain_check env0 None
           fresh_session " bob" "pw").
  - vm_compute. discriminate.
  - intros e [= <-]. vm_compute. discriminate.
Defined.

(** X9 with the stand-in hash: [root] does not log in on a fresh
    installation. *)
Lemma fresh_install_login_witness :
  login plain_hash plain_check env0 None fresh_session "root" "password"
  = (InvalidCredentials, fresh_session).
Proof.
  destruct (fresh_install_login plain_hash plain_check plain_check_generate
              env0 fresh_session) as (_ & H).
  apply H; vm_compute; discriminate.
Defined.

(** ** Page routing and CSV import *)

(** X10: for a page taken from the select box, [main] shows the
    administrator view exactly to a logged-in session whose role is
    Administrator, the researcher view exactly to a logged-in Researcher,
    the investor view to every other logged-in session (unknown roles
    included), and the login and registration forms exactly when nobody is
    logged in. *)
Theorem main_view_by_role s page :
  In page (pages (session_role s)) ->
  (main s page = AdminView
   <-> logged_in s = true /\ session_role s = "Administrator")
  /\ (main s page = ResearcherView
      <-> logged_in s = true /\ session_role s = "Researcher")
  /\ (main s page = InvestorView
      <-> logged_in s = true /\ session_role s <> "Administrator"
          /\ session_role s <> "Researcher")
  /\ (main s page = AuthSection <-> logged_in s = false).
Proof.
  destruct s as [li uname urole]. unfold main, pages, page_view. simpl.
  destruct li; simpl; [|intros _; intuition discriminate].
  destruct (String.eqb_spec urole "Investor") as [->|Hi]; simpl.
  - intros [<-|[]]. simpl. intuition discriminate.
  - destruct (String.eqb_spec urole "Researcher") as [->|Hr]; simpl.
    + intros [<-|[<-|[]]]; simpl; intuition discriminate.
    + destruct (String.eqb_spec urole "Administrator") as [->|Ha]; simpl.
      * intros [<-|[<-|[]]]; simpl; intuition discriminate.
      * intros [<-|[]]. simpl. intuition (try discriminate; try congruence).
Qed.

(** X10 for an Administrator session on the page [Home]. *)
Lemma main_view_by_role_witness :
  main {| logged_in := true; session_username := "admin";
          session_role := "Administrator" |} "Home" = AdminView.
Proof.
  destruct (main_view_by_role
              {| logged_in := true; session_username := "admin";
                 session_role := "Administrator" |} "Home") as (H & _).
  - simpl. auto.
  - apply H. split; reflexivity.
Defined.

(** X11: the import accepts exactly the four file names [load_data] reads.
    A refused upload changes nothing; an accepted one replaces that file
    only, the table read from it is the uploaded one (the empty table if it
    does not parse), the other files read as before, and the tables are
    reloaded from the new directory. *)
Theorem import_csv_effect dir fname parsed :
  (import_csv dir fname parsed = None
   <-> ~ In fname ["countries.csv"; "minerals.csv"; "production_stats.csv"; "sites.csv"])
  /\ (forall dir' tables,
        import_csv dir fname parsed = Some (dir', tables) ->
        dir' = <[fname := parsed]> dir
        /\ tables = load_data dir'
        /\ (forall cols,
              safe_read dir' fname cols
              = match parsed with Ok df => df | Raise _ => DataFrame_new end)
        /\ (forall other cols,
              other <> fname -> safe_read dir' other cols = safe_read dir other cols)).
Proof.
  unfold import_csv.
  destruct (existsb _ _) eqn:E.
  - apply existsb_exists in E as (x & Hx & Hfx). apply String.eqb_eq in Hfx. subst x.
    split; [split; [discriminate|contradiction]|].
    intros dir' tables [= <- <-]. split; [reflexivity|]. split; [reflexivity|].
    split.
    + intros cols. unfold safe_read. rewrite lookup_insert_eq.
      now destruct parsed.
    + intros other cols Hne. unfold safe_read.
      rewrite lookup_insert_ne by congruence. reflexivity.
  - split; [|discriminate]. split; [|reflexivity]. intros _ Hin.
    assert (existsb (String.eqb fname)
              ["countries.csv"; "minerals.csv"; "production_stats.csv"; "sites.csv"]
            = true); [|congruence].
    apply existsb_exists. exists fname. split; [exact Hin|apply String.eqb_refl].
Qed.

(** X11 for an upload of [minerals.csv] into the scenario without it, and
    for an upload under another name. *)
Lemma import_csv_effect_witness :
  (exists dir' tables,
      import_csv no_minerals_dir "minerals.csv" (Ok zed_minerals) = Some (dir', tables)
      /\ safe_read dir' "minerals.csv" (Some minerals_cols) = zed_minerals)
  /\ import_csv zed_dir "evil.csv" (Ok zed_minerals) = None.
Proof.
  destruct (import_csv_effect no_minerals_dir "minerals.csv" (Ok zed_minerals))
    as (_ & H).
  destruct (import_csv_effect zed_dir "evil.csv" (Ok zed_minerals)) as (Hnone & _).
  split.
  - eexists _, _. split; [reflexivity|].
    destruct (H _ _ eq_refl) as (_ & _ & Hread & _). apply Hread.
  - apply Hnone. simpl. intuition discriminate.
Defined.


(** ** More on the join *)

Lemma length_remove_nth {A B} (k : nat) (l : list A) (l' : list B) :
  length l = length l' -> length (remove_nth k l) = length (remove_nth k l').
Proof.
  intros H. unfold remove_nth.
  rewrite !length_app, !length_take, !length_drop. lia.
Qed.

Lemma merge_well_formed l r on j :
  well_formed l -> well_formed r -> merge l r on = Ok j -> well_formed j.
Proof.
  intros Wl Wr Hj. destruct (merge_Ok _ _ _ _ Hj) as (i & k & _ & _ & Cj & Rj).
  unfold well_formed. rewrite Cj, Rj. apply List.Forall_forall. intros row Hrow.
  apply in_merge_rows in Hrow as (a & b & Ha & Hb & _ & ->).
  unfold merge_columns. rewrite !length_app, !length_map.
  rewrite (well_formed_row _ _ Wl Ha).
  now rewrite (length_remove_nth k b (columns r)) by apply (well_formed_row _ _ Wr Hb).
Qed.

Lemma join_or_keep_well_formed t c m :
  well_formed t -> well_formed c -> well_formed m ->
  well_formed (join_or_keep t c m).
Proof.
  intros Wt Wc Wm. unfold join_or_keep.
  destruct (negb (df_empty t) && negb (df_empty c) && negb (df_empty m));
    [|exact Wt].
  destruct (join t c m) as [j|] eqn:Hj; [|exact Wt]. unfold join in Hj.
  destruct (merge t c "CountryID") as [mid|] eqn:E1; simpl in Hj; [|discriminate].
  eapply merge_well_formed; [| |exact Hj]; [|exact Wm].
  eapply merge_well_formed; [| |exact E1]; assumption.
Qed.

(** X12: when the four tables read have one cell per column in every row,
    so have the two views [load_data] returns, joined or not. *)
Theorem load_data_well_formed dir :
  well_formed (safe_read dir "countries.csv" (Some countries_cols)) ->
  well_formed (safe_read dir "minerals.csv" (Some minerals_cols)) ->
  well_formed (safe_read dir "production_stats.csv" (Some production_cols)) ->
  well_formed (safe_read dir "sites.csv" (Some sites_cols)) ->
  well_formed (production_view dir) /\ well_formed (sites_view dir).
Proof.
  intros Wc Wm Wp Ws. split; now apply join_or_keep_well_formed.
Qed.

(** X12 on the scenario of the specification. *)
Lemma load_data_well_formed_witness :
  well_formed (production_view zed_dir) /\ well_formed (sites_view zed_dir).
Proof.
  apply load_data_well_formed; repeat constructor.
Defined.

Lemma filter_none {A} (f : A -> bool) (l : list A) :
  (forall x, In x l -> f x = false) -> List.filter f l = [].
Proof.
  induction l as [|x l IH]; intros H; simpl; [reflexivity|].
  rewrite (H x) by now left. apply IH. intros y Hy. apply H. now right.
Qed.

Lemma plain_ids_matched_once key c1 c2 :
  plain_id c1 -> plain_id c2 ->
  key_eqb key c1 = true -> key_eqb key c2 = true -> c1 = c2.
Proof.
  intros P1 P2 H1 H2. apply key_eqb_ids_match in H1, H2.
  destruct c1 as [|z1|q1|s1], c2 as [|z2|q2|s2]; simpl in P1, P2; try contradiction;
    destruct key as [|x|q|s]; simpl in H1, H2; try contradiction; try congruence.
  destruct (Z.leb_spec (Z.abs z1) (2 ^ 53)); [|lia].
  destruct (Z.leb_spec (Z.abs z2) (2 ^ 53)); [|lia].
  rewrite <- H2 in H1. rewrite inject_Z_injective in H1. now subst.
Qed.

Lemma matches_at_most_one key k (R : list (list Cell)) :
  Forall (fun r => plain_id (cell r k)) R ->
  (forall i1 i2 b1 b2, R !! i1 = Some b1 -> R !! i2 = Some b2 -> i1 <> i2 ->
                       cell b1 k <> cell b2 k) ->
  (length (List.filter (fun r => key_eqb key (cell r k)) R) <= 1)%nat.
Proof.
  induction R as [|b R IH]; intros Hp Hd; simpl; [lia|].
  apply List.Forall_cons_iff in Hp as [Hpb Hp].
  assert (Hd' : forall i1 i2 b1 b2, R !! i1 = Some b1 -> R !! i2 = Some b2 ->
                  i1 <> i2 -> cell b1 k <> cell b2 k).
  { intros i1 i2 b1 b2 H1 H2 Hne. apply (Hd (S i1) (S i2)); auto. }
  destruct (key_eqb key (cell b k)) eqn:Hb; [|now apply IH].
  rewrite filter_none; [simpl; lia|].
  intros b' Hb'. destruct (key_eqb key (cell b' k)) eqn:Hb''; [|reflexivity].
  rewrite List.Forall_forall in Hp. pose proof (Hp b' Hb') as Hpb'.
  apply list_elem_of_In, list_elem_of_lookup in Hb' as (i & Hi).
  destruct (Hd 0%nat (S i) b b'); auto.
  now apply (plain_ids_matched_once key).
Qed.

Lemma merge_rows_at_most_left L R i k :
  Forall (fun r => plain_id (cell r k)) R ->
  (forall i1 i2 b1 b2, R !! i1 = Some b1 -> R !! i2 = Some b2 -> i1 <> i2 ->
                       cell b1 k <> cell b2 k) ->
  (length (merge_rows L R i k) <= length L)%nat.
Proof.
  intros Hp Hd. unfold merge_rows. induction L as [|l L IH]; simpl; [lia|].
  rewrite length_app, length_map.
  pose proof (matches_at_most_one (cell l i) k R Hp Hd). lia.
Qed.

(** X13: when the country ids are pairwise different and each is a text
    or an integer of absolute value at most 2^53, and likewise the
    mineral ids, the join does not multiply rows: the joined view has at
    most as many rows as the table it is built from. *)
Theorem join_does_not_multiply t c m j :
  keys_distinct "CountryID" c -> keys_distinct "MineralID" m ->
  join t c m = Ok j ->
  (length (rows j) <= length (rows t))%nat.
Proof.
  intros Dc Dm Hj. unfold join in Hj.
  destruct (merge t c "CountryID") as [mid|] eqn:E1; simpl in Hj; [|discriminate].
  destruct (merge_Ok _ _ _ _ E1) as (i1 & k1 & _ & Hk1 & _ & R1).
  destruct (merge_Ok _ _ _ _ Hj) as (i2 & k2 & _ & Hk2 & _ & R2).
  rewrite R2, R1. destruct (Dc _ Hk1) as (Pc & Nc). destruct (Dm _ Hk2) as (Pm & Nm).
  etransitivity; apply merge_rows_at_most_left; assumption.
Qed.

(** X13 on the scenario of the specification. *)
Lemma join_does_not_multiply_witness :
  (length (rows (production_view zed_dir)) <= length (rows zed_production))%nat.
Proof.
  apply (join_does_not_multiply zed_production zed_countries zed_minerals).
  - intros k [= <-]. split; [repeat constructor; simpl; lia|].
    intros [|i1] [|i2] b1 b2 H1 H2 Hne; try discriminate. contradiction.
  - intros k [= <-]. split; [repeat constructor; simpl; lia|].
    intros [|i1] [|i2] b1 b2 H1 H2 Hne; try discriminate. contradiction.
  - reflexivity.
Defined.

(** ** More on the sites map *)

Section BuildMapMore.

Variable str_to_float : string -> option PyFloat.
Variable str_to_int : string -> option Z.
Variable to_numeric_str : string -> PyFloat.

Abbreviation build' := (build_map str_to_float str_to_int to_numeric_str).
Abbreviation markers_of' := (add_markers str_to_float str_to_int).
Abbreviation coords := (row_coords str_to_float).
Abbreviation tonnes_of cols r :=
  (py_int str_to_int (default (CInt 0) (row_get cols r "Production_tonnes"))).


Lemma add_markers_rows cmap cols rs : forall ms,
  markers_of' cmap cols rs = Ok ms ->
  (length ms <= length rs)%nat
  /\ Forall (fun mk =>
       exists r, In r rs
                 /\ coords cols r = Some (marker_location mk)
                 /\ popup_mineral (marker_popup mk)
                    = default (CStr "") (row_get cols r "MineralName")) ms.
Proof.
  induction rs as [|r rs IH]; intros ms; simpl.
  - intros [= <-]. split; [simpl; lia|constructor].
  - destruct (coords cols r) as [loc|] eqn:Hloc.
    + destruct (tonnes_of cols r) as [t|]; simpl; [|discriminate].
      destruct (validate_location loc) as [loc'|] eqn:Hv; simpl; [|discriminate].
      assert (loc' = loc) as ->.
      { unfold validate_location in Hv.
        destruct (is_nan (fst loc) || is_nan (snd loc)); congruence. }
      destruct (markers_of' cmap cols rs) as [ms'|]; simpl; [|discriminate].
      intros [= <-]. destruct (IH ms' eq_refl) as (Hlen & Hall).
      split; [simpl; lia|]. constructor.
      * exists r. simpl. auto.
      * eapply Forall_impl; [exact Hall|]. simpl.
        intros mk (r' & Hr' & H). exists r'. auto.
    + intros H. destruct (IH ms H) as (Hlen & Hall). split; [lia|].
      eapply Forall_impl; [exact Hall|]. simpl.
      intros mk (r' & Hr' & H'). exists r'. auto.
Qed.


(** X14: [build_map] returns [None] exactly on an empty table; on any
    other table it returns a map or raises. *)
Theorem build_map_none_iff_empty df sel :
  build' df sel = Ok None <-> df_empty df = true.
Proof.
  unfold build_map. destruct (df_empty df); [tauto|].
  split; [|discriminate].
  destruct (select_mineral df sel) as [df'|]; simpl; [|discriminate].
  destruct (validate_location _) as [center|]; simpl; [|discriminate].
  destruct (mineral_names df') as [ns|]; simpl; [|discriminate].
  destruct (markers_of' _ _ _); simpl; discriminate.
Qed.

Lemma build_map_without_mineral_column df sel :
  df_empty df = false -> col_index "MineralName" (columns df) = None ->
  (build' df sel = Raise "KeyError" \/ build' df sel = Raise "ValueError")
  /\ (forall s, sel = Some s -> s <> "All" -> build' df sel = Raise "KeyError").
Proof.
  intros Hne Hcol. unfold build_map. rewrite Hne.
  unfold select_mineral, mineral_names. split.
  - destruct sel as [s|]; simpl.
    + destruct (s =? "All")%string; simpl; [|rewrite Hcol; now left].
      unfold validate_location.
      destruct (is_nan _ || is_nan _); simpl; [now right|]. rewrite Hcol. now left.
    + unfold validate_location.
      destruct (is_nan _ || is_nan _); simpl; [now right|]. rewrite Hcol. now left.
  - intros s -> Hs. apply String.eqb_neq in Hs. rewrite Hs, Hcol. reflexivity.
Qed.

(** X15: when sites were read, with no [MineralName] column of their own,
    but the countries or the minerals table is empty, [load_data] hands
    back the sites unjoined and [build_map] on them never returns a map:
    it raises [KeyError], or [ValueError] when no mineral is selected and
    the map centre is refused; with a mineral selected it is [KeyError]. *)
Theorem build_map_on_unjoined_sites dir sel :
  let countries := safe_read dir "countries.csv" (Some countries_cols) in
  let minerals := safe_read dir "minerals.csv" (Some minerals_cols) in
  let sites := safe_read dir "sites.csv" (Some sites_cols) in
  df_empty sites = false ->
  col_index "MineralName" (columns sites) = None ->
  df_empty countries = true \/ df_empty minerals = true ->
  (build' (sites_view dir) sel = Raise "KeyError"
   \/ build' (sites_view dir) sel = Raise "ValueError")
  /\ (forall s, sel = Some s -> s <> "All" ->
                build' (sites_view dir) sel = Raise "KeyError").
Proof.
  intros countries minerals sites Hne Hcol Hempty.
  assert (Hview : sites_view dir = sites).
  { unfold sites_view, load_data. simpl. apply join_or_keep_skip. tauto. }
  rewrite Hview. now apply build_map_without_mineral_column.
Qed.



End BuildMapMore.


(** X15 on a directory with sites and countries but no minerals. *)
Lemma build_map_on_unjoined_sites_witness :
  build_map (fun _ => None) (fun _ => None) (fun _ => FNaN)
    (sites_view sites_only_dir) (Some "Cobalt") = Raise "KeyError".
Proof.
  destruct (build_map_on_unjoined_sites (fun _ => None) (fun _ => None)
              (fun _ => FNaN) sites_only_dir (Some "Cobalt")) as (_ & H).
  - reflexivity.
  - reflexivity.
  - right. reflexivity.
  - apply (H "Cobalt"); [reflexivity|discriminate].
Defined.



Lemma unique_from_covers l : forall seen a,
  In a l ->
  existsb (cell_eqb a) seen = true
  \/ exists i b, unique_from seen l !! i = Some b /\ cell_eqb b a = true.
Proof.
  induction l as [|c l IH]; intros seen a Hin; [destruct Hin|]. simpl.
  destruct (existsb (cell_eqb c) seen) eqn:Hc.
  - destruct Hin as [->|Hin]; [now left|]. now apply IH.
  - destruct Hin as [->|Hin].
    + right. exists 0%nat, a. split; [reflexivity|apply cell_eqb_refl].
    + destruct (IH (c :: seen) a Hin) as [Hseen|(i & b & Hi & Hb)].
      * simpl in Hseen. apply orb_true_iff in Hseen as [Hac|Hseen]; [|now left].
        right. exists 0%nat, c. split; [reflexivity|].
        now rewrite cell_eqb_sym.
      * right. exists (S i), b. auto.
Qed.

Lemma palette_NoDup : NoDup palette.
Proof. unfold palette. nodup_explicit. Qed.

Section MarkerColors.

Variable str_to_float : string -> option PyFloat.
Variable str_to_int : string -> option Z.
Variable to_numeric_str : string -> PyFloat.

(** X19: as long as the filtered rows name at most as many distinct
    minerals as the palette has colours, two markers for different
    minerals never get the same colour. *)
Theorem different_minerals_different_colors df sel df' minerals m mk1 mk2 :
  build_map str_to_float str_to_int to_numeric_str df sel = Ok (Some m) ->
  select_mineral df sel = Ok df' ->
  mineral_names df' = Ok minerals ->
  (length minerals <= length palette)%nat ->
  In mk1 (markers m) -> In mk2 (markers m) ->
  popup_mineral (marker_popup mk1) <> NaN ->
  popup_mineral (marker_popup mk2) <> NaN ->
  cell_eqb (popup_mineral (marker_popup mk1)) (popup_mineral (marker_popup mk2)) = false ->
  marker_color mk1 <> marker_color mk2.
Proof.
  intros Hm Hsel Hnames Hlen H1 H2 Hn1 Hn2 Hdiff. unfold build_map in Hm.
  destruct (df_empty df); [discriminate|]. rewrite Hsel in Hm. simpl in Hm.
  destruct (validate_location _) as [center|]; simpl in Hm; [|discriminate].
  rewrite Hnames in Hm. simpl in Hm. unfold mineral_names in Hnames.
  destruct (col_index "MineralName" (columns df')) as [i0|] eqn:Hcol; [|discriminate].
  injection Hnames as <-.
  set (names := map (fun r => cell r i0) (rows df')) in *.
  destruct (add_markers _ _ _ (columns df') (rows df')) as [ms|] eqn:Hms;
    simpl in Hm; [|discriminate].
  injection Hm as <-. simpl in H1, H2.
  pose proof (add_markers_color _ _ _ _ _ _ _ Hcol Hms) as Hcolor.
  destruct (add_markers_rows _ _ _ _ _ _ Hms) as (_ & Hrows).
  rewrite List.Forall_forall in Hcolor, Hrows.
  assert (Hrep : forall mk, In mk ms -> popup_mineral (marker_popup mk) <> NaN ->
            exists i b, unique (dropna names) !! i = Some b
                        /\ cell_eqb b (popup_mineral (marker_popup mk)) = true).
  { intros mk Hmk Hnan. destruct (Hrows mk Hmk) as (r & Hr & _ & Hmin).
    unfold row_get in Hmin. rewrite Hcol in Hmin. simpl in Hmin.
    assert (Hin : In (popup_mineral (marker_popup mk)) (dropna names)).
    { rewrite Hmin. apply filter_In. split.
      - apply in_map_iff. exists r. auto.
      - rewrite Hmin in Hnan. now destruct (cell r i0). }
    destruct (unique_from_covers _ [] _ Hin) as [Hseen|Hex]; [discriminate|exact Hex]. }
  destruct (Hrep mk1 H1 Hn1) as (i1 & b1 & Hi1 & Hb1).
  destruct (Hrep mk2 H2 Hn2) as (i2 & b2 & Hi2 & Hb2).
  pose proof (make_cmap_color _ _ _ _ "#ffffff" Hi1 Hb1) as Hc1.
  pose proof (make_cmap_color _ _ _ _ "#ffffff" Hi2 Hb2) as Hc2.
  rewrite <- (Hcolor mk1 H1) in Hc1. rewrite <- (Hcolor mk2 H2) in Hc2.
  assert (Hlt1 : (i1 < length palette)%nat)
    by (apply lookup_lt_Some in Hi1; lia).
  assert (Hlt2 : (i2 < length palette)%nat)
    by (apply lookup_lt_Some in Hi2; lia).
  rewrite Nat.mod_small in Hc1, Hc2 by assumption.
  intros Heq. rewrite Heq in Hc1.
  pose proof (NoDup_lookup _ _ _ _ palette_NoDup Hc1 Hc2) as ->.
  rewrite Hi1 in Hi2. injection Hi2 as ->.
  rewrite cell_eqb_sym in Hb1.
  now rewrite (cell_eqb_trans _ _ _ Hb1 Hb2) in Hdiff.
Qed.

End MarkerColors.


(** X19 on a table with a cobalt site and a gold site. *)
Lemma different_minerals_different_colors_witness :
  exists m mk1 mk2,
    build_map (fun _ => None) (fun _ => None) (fun _ => FNaN) two_sites None
    = Ok (Some m)
    /\ markers m = [mk1; mk2]
    /\ marker_color mk1 <> marker_color mk2.
Proof.
  eexists _, _, _. split; [vm_compute; reflexivity|]. split; [reflexivity|].
  eapply (different_minerals_different_colors (fun _ => None) (fun _ => None)
            (fun _ => FNaN) two_sites None two_sites).
  - reflexivity.
  - reflexivity.
  - reflexivity.
  - vm_compute. lia.
  - left. reflexivity.
  - right. left. reflexivity.
  - discriminate.
  - discriminate.
  - reflexivity.
Defined.

(** ** The logo finder *)

Lemma string_leb_refl s : String.leb s s = true.
Proof. now destruct (String.leb_total s s). Qed.

Lemma string_leb_trans a : forall b c,
  String.leb a b = true -> String.leb b c = true -> String.leb a c = true.
Proof.
  induction a as [|x a IH]; intros b c.
  - intros _ _. now destruct c.
  - destruct b as [|y b]; [discriminate|]. destruct c as [|z c]; [discriminate|].
    unfold String.leb. simpl. unfold Ascii.compare.
    destruct (N.compare_spec (N_of_ascii x) (N_of_ascii y)) as [Exy|Lxy|Gxy];
      destruct (N.compare_spec (N_of_ascii y) (N_of_ascii z)) as [Eyz|Lyz|Gyz];
      destruct (N.compare_spec (N_of_ascii x) (N_of_ascii z)) as [Exz|Lxz|Gxz];
      try discriminate; try lia; try reflexivity.
    apply IH.
Qed.

Lemma in_insert_sorted x l z : In z (insert_sorted x l) <-> z = x \/ In z l.
Proof.
  induction l as [|y l IH]; simpl; [intuition|].
  destruct (String.leb x y); simpl; [intuition|]. rewrite IH. intuition.
Qed.

Lemma in_sort_strings l z : In z (sort_strings l) <-> In z l.
Proof.
  induction l as [|x l IH]; simpl; [tauto|].
  rewrite in_insert_sorted, IH. intuition.
Qed.

Lemma insert_sorted_head x l :
  match l with [] => True | c :: _ => forall y, In y l -> String.leb c y = true end ->
  match insert_sorted x l with
  | [] => True
  | c :: _ => forall y, In y (insert_sorted x l) -> String.leb c y = true
  end.
Proof.
  destruct l as [|y l]; simpl.
  - intros _ z [<-|[]]. apply string_leb_refl.
  - intros Hy. destruct (String.leb x y) eqn:E.
    + intros z [<-|Hz]; [apply string_leb_refl|].
      eapply string_leb_trans; [exact E|]. now apply Hy.
    + intros z [<-|Hz]; [apply string_leb_refl|].
      apply in_insert_sorted in Hz as [->|Hz]; [|apply Hy; now right].
      destruct (String.leb_total x y) as [H|H]; [congruence|exact H].
Qed.

Lemma sort_strings_head l :
  match sort_strings l with
  | [] => l = []
  | c :: _ => In c l /\ forall y, In y l -> String.leb c y = true
  end.
Proof.
  assert (H : match sort_strings l with
              | [] => True
              | c :: _ => forall y, In y (sort_strings l) -> String.leb c y = true
              end).
  { induction l as [|x l IH]; simpl; [exact I|]. now apply insert_sorted_head. }
  destruct (sort_strings l) as [|c rest] eqn:E.
  - destruct l as [|x l]; [reflexivity|].
    assert (Hin : In x (sort_strings (x :: l))) by (apply in_sort_strings; now left).
    rewrite E in Hin. destruct Hin.
  - split.
    + apply in_sort_strings. rewrite E. now left.
    + intros y Hy. apply H. rewrite <- E. now apply in_sort_strings.
Qed.

Section FindLogoFacts.

Variable lower : string -> string.

(** X20: [find_logo] returns the file named [african crit min logo.png]
    whenever the assets directory lists it; otherwise it returns the
    candidate that comes first in string order, and nothing when no file
    is a candidate.  What it returns is always a listed file. *)
Theorem find_logo_choice files :
  (In "african crit min logo.png" files ->
   find_logo lower (Some files)
   = Some (path_join ASSETS_DIR "african crit min logo.png"))
  /\ (~ In "african crit min logo.png" files ->
      (Forall (fun f => is_candidate lower f = false) files ->
       find_logo lower (Some files) = None)
      /\ (forall c, In c files -> is_candidate lower c = true ->
           exists best,
             find_logo lower (Some files) = Some (path_join ASSETS_DIR best)
             /\ In best files /\ is_candidate lower best = true
             /\ forall c', In c' files -> is_candidate lower c' = true ->
                           String.leb best c' = true)).
Proof.
  unfold find_logo. split.
  - intros Hin.
    assert (E : existsb (String.eqb "african crit min logo.png") files = true).
    { apply existsb_exists. eexists. split; [exact Hin|apply String.eqb_refl]. }
    now rewrite E.
  - intros Hnot.
    assert (E : existsb (String.eqb "african crit min logo.png") files = false).
    { destruct (existsb _ files) eqn:E; [|reflexivity].
      apply existsb_exists in E as (x & Hx & Hpx). apply String.eqb_eq in Hpx.
      now subst x. }
    rewrite E. pose proof (sort_strings_head (List.filter (is_candidate lower) files)) as Hs.
    split.
    + intros Hnone. rewrite filter_none; [reflexivity|].
      now apply List.Forall_forall.
    + intros c Hc Hcand.
      destruct (sort_strings (List.filter (is_candidate lower) files)) as [|best rest].
      * assert (Hin : In c (List.filter (is_candidate lower) files))
          by (apply filter_In; auto).
        rewrite Hs in Hin. destruct Hin.
      * destruct Hs as (Hbest & Hleast). apply filter_In in Hbest as [Hb1 Hb2].
        exists best. split; [reflexivity|]. split; [exact Hb1|]. split; [exact Hb2|].
        intros c' Hc' Hcand'. apply Hleast. apply filter_In. auto.
Qed.

End FindLogoFacts.

(** X20 with a listing of two candidates, taking names as already in
    lower case. *)
Lemma find_logo_choice_witness :
  exists best,
    find_logo (fun s => s) (Some ["minerals.png"; "logo.png"; "notes.txt"])
    = Some (path_join ASSETS_DIR best)
    /\ String.leb best "minerals.png" = true
    /\ String.leb best "logo.png" = true.
Proof.
  destruct (find_logo_choice (fun s => s) ["minerals.png"; "logo.png"; "notes.txt"])
    as (_ & H).
  destruct H as (_ & H); [simpl; intuition discriminate|].
  destruct (H "logo.png") as (best & Hfind & _ & _ & Hleast);
    [simpl; auto|reflexivity|].
  exists best. split; [exact Hfind|].
  split; apply Hleast; simpl; auto.
Defined.

(** ** Access to the administrator view, and the columns of the views *)

Lemma admin_page_needs_admin_role urole page :
  In page (pages urole) -> page_view urole page = AdminView ->
  urole = "Administrator".
Proof.
  unfold pages, page_view.
  destruct (String.eqb_spec urole "Investor") as [->|Hi]; simpl.
  - intros [<-|[]]. discriminate.
  - destruct (String.eqb_spec urole "Researcher") as [->|Hr]; simpl.
    + intros [<-|[<-|[]]]; discriminate.
    + destruct (String.eqb_spec urole "Administrator") as [->|Ha]; simpl; [auto|].
      intros [<-|[]]. discriminate.
Qed.

Section AdminAccess.

Context {Salt : Type}.
Variable generate_password_hash : Salt -> string -> string.
Variable check_password_hash : string -> string -> bool.

(** X21: the administrator view, with its import and its user deletion,
    opens only for a stored Administrator.  If a login succeeds and the
    session it opens is shown the administrator view, then the store holds
    an account with the role Administrator that the stripped identifier
    names and whose hash verifies the password. *)
Theorem admin_view_needs_stored_admin env file s login_id pw s' page :
  login generate_password_hash check_password_hash env file s login_id pw
  = (LoggedIn, s') ->
  In page (pages (session_role s')) ->
  main s' page = AdminView ->
  exists v,
    In v (users (load_users generate_password_hash env file))
    /\ names (strip login_id) v = true
    /\ check_password_hash (password_hash v) pw = true
    /\ role v = "Administrator"
    /\ session_username s' = username v.
Proof.
  unfold login.
  destruct (authenticate _ _ env file (strip login_id) pw) as [v|] eqn:Hv;
    [|discriminate].
  intros [= <-] Hpage Hmain. unfold main in Hmain. simpl in *.
  apply authenticate_loop_Some in Hv as (Hin & Hn & Hc).
  exists v. repeat split; try assumption.
  now apply (admin_page_needs_admin_role _ page).
Qed.

End AdminAccess.

(** X21 for the seed administrator on a fresh installation. *)
Lemma admin_view_needs_stored_admin_witness :
  exists v,
    In v (users (load_users plain_hash env0 None))
    /\ role v = "Administrator" /\ username v = "admin".
Proof.
  destruct (admin_view_needs_stored_admin plain_hash plain_check env0 None
              fresh_session "admin" "password"
              {| logged_in := true; session_username := "admin";
                 session_role := "Administrator" |} "Admin")
    as (v & Hin & _ & _ & Hrole & Hname).
  - reflexivity.
  - simpl. auto.
  - reflexivity.
  - exists v. simpl in Hname. auto.
Defined.

(** X22: with the three tables in the documented columns, a join that is
    carried out yields the columns of the source table followed by those
    of the countries and of the minerals without their keys, none
    renamed; in particular [CountryName] and [MineralName] are columns of
    the view. *)
Theorem joined_view_columns t c m j :
  columns c = countries_cols -> columns m = minerals_cols ->
  columns t = production_cols \/ columns t = sites_cols ->
  join t c m = Ok j ->
  columns j = columns t ++ tl countries_cols ++ tl minerals_cols
  /\ has_column "CountryName" (columns j) = true
  /\ has_column "MineralName" (columns j) = true.
Proof.
  intros Cc Cm Ct Hj. unfold join in Hj.
  destruct (merge t c "CountryID") as [mid|] eqn:E1; simpl in Hj; [|discriminate].
  destruct (merge_Ok _ _ _ _ E1) as (i1 & k1 & _ & Hk1 & Cmid & _).
  destruct (merge_Ok _ _ _ _ Hj) as (i2 & k2 & _ & Hk2 & Cj & _).
  rewrite Cc in Hk1. rewrite Cm in Hk2. vm_compute in Hk1, Hk2.
  injection Hk1 as <-. injection Hk2 as <-.
  rewrite Cj, Cmid, Cc, Cm.
  destruct Ct as [-> | ->]; repeat split; reflexivity.
Qed.

(** X22 on the scenario of the specification. *)
Lemma joined_view_columns_witness :
  has_column "CountryName" (columns (production_view zed_dir)) = true
  /\ has_column "MineralName" (columns (production_view zed_dir)) = true.
Proof.
  destruct (joined_view_columns zed_production zed_countries zed_minerals
              (production_view zed_dir)) as (_ & H1 & H2);
    [reflexivity|reflexivity|left; reflexivity|reflexivity|].
  split; assumption.
Defined.
